(** * miio.click_common: command registration and dispatch for the miio CLI

    A shallow embedding of [miio/click_common.py] and the properties its
    specification states about it.

    Conventions of the embedding.
    - A Python [str] is a Rocq [string]; one [ascii] stands for one code
      point in the range 0..255, so [String.length] is [len], and
      [String.compare] is Python's code-point order on [str].
    - A Python [dict] whose insertion order is never observed (the command
      table is only looked up and has its keys sorted; keyword arguments are
      only looked up) is a [gmap string _].  The class namespace, whose
      iteration order decides which method wins, is an association list in
      definition order.
    - Exceptions are values: a computation returns an [Outcome]; a computation
      that also prints or logs returns a [Run], the events it emitted together
      with its outcome.
    - What the module imports ([click], [ipaddress], [miio], [logging]) is not
      part of the repository: [click.echo] and [_LOGGER.debug] are events,
      [click.command] builds a record, [ipaddress.ip_address] is a variable.
    - [DeviceGroup.group_callback], [command_callback] and [get_command] run
      inside click's context machinery; they are embedded in [Dispatch], over
      variables for what click and the device class do. *)

From Stdlib Require Import String Ascii ZArith List Bool Lia.
From stdpp Require Import base option list sorting gmap strings pretty.

Local Open Scope string_scope.
Local Open Scope list_scope.

(** ** Python values, exceptions, effects *)

Inductive PyVal : Type :=
  | VNone
  | VBool (b : bool)
  | VInt (z : Z)
  | VStr (s : string).

(** [bool(v)] *)
Definition truthy (v : PyVal) : bool :=
  match v with
  | VNone => false
  | VBool b => b
  | VInt z => negb (z =? 0)%Z
  | VStr s => negb (String.eqb s "")
  end.

(** [str(v)], which is also [format(v, "")] for these types. *)
Definition py_str (v : PyVal) : string :=
  match v with
  | VNone => "None"
  | VBool true => "True"
  | VBool false => "False"
  | VInt z => pretty z
  | VStr s => s
  end.

(** An exception instance: its class, the other classes of its MRO, and
    [str(ex)]. *)
Record PyExc : Type := mkExc {
  exc_class : string;
  exc_bases : list string;
  exc_str : string
}.

(** [isinstance(ex, cls)], the test an [except cls] clause makes. *)
Definition isinstance (ex : PyExc) (cls : string) : bool :=
  String.eqb (exc_class ex) cls || existsb (String.eqb cls) (exc_bases ex).

Definition ValueError (msg : string) : PyExc :=
  mkExc "ValueError" ["Exception"; "BaseException"] msg.
Definition KeyError (msg : string) : PyExc :=
  mkExc "KeyError" ["LookupError"; "Exception"; "BaseException"] msg.
Definition IndexError (msg : string) : PyExc :=
  mkExc "IndexError" ["LookupError"; "Exception"; "BaseException"] msg.
Definition AttributeError (msg : string) : PyExc :=
  mkExc "AttributeError" ["Exception"; "BaseException"] msg.
Definition RuntimeError (msg : string) : PyExc :=
  mkExc "RuntimeError" ["Exception"; "BaseException"] msg.
(** [click.BadParameter] *)
Definition BadParameter (msg : string) : PyExc :=
  mkExc "click.BadParameter"
        ["click.UsageError"; "click.ClickException"; "Exception"; "BaseException"] msg.
(** [miio.DeviceException], the root of the device library's family. *)
Definition DeviceException (msg : string) : PyExc :=
  mkExc "miio.DeviceException" ["Exception"; "BaseException"] msg.
(** Marks Python behaviour the embedding does not cover; no theorem draws a
    conclusion from it. *)
Definition Unmodelled (what : string) : PyExc :=
  mkExc "<unmodelled>" [] what.

Inductive Outcome (A : Type) : Type :=
  | Normal (a : A)
  | Raise (ex : PyExc).
Arguments Normal {A} a.
Arguments Raise {A} ex.

Definition is_normal {A} (o : Outcome A) : bool :=
  match o with Normal _ => true | Raise _ => false end.

(** Text handed to [click.echo]: plain, or the result of [click.style]. *)
Record Text : Type := mkText {
  txt : string;
  fg : option string;
  bold : bool
}.
Definition plain (s : string) : Text := mkText s None false.
(** [click.style(s, fg=.., bold=..)] *)
Definition style (s : string) (fg : string) (bold : bool) : Text :=
  mkText s (Some fg) bold.

Inductive Event : Type :=
  | Echo (t : Text)                (* click.echo(t): one line on stdout *)
  | LogDebug (fmt : string) (ex : PyExc) (exc_info : bool).
                                   (* _LOGGER.debug(fmt, ex, exc_info=..) *)

(** An effectful computation: what it emitted, then how it ended. *)
Definition Run (A : Type) : Type := (list Event * Outcome A)%type.

Definition ret {A} (a : A) : Run A := ([], Normal a).
Definition raise {A} (ex : PyExc) : Run A := ([], Raise ex).
Definition emit (e : Event) : Run unit := ([e], Normal tt).
Definition lift {A} (o : Outcome A) : Run A := ([], o).
Definition bind {A B} (m : Run A) (k : A → Run B) : Run B :=
  match m with
  | (t1, Normal a) => let '(t2, r) := k a in (t1 ++ t2, r)
  | (t1, Raise ex) => (t1, Raise ex)
  end.

Notation "x <~ m ;; k" := (bind m (λ x, k))
  (at level 100, m at next level, right associativity).
Notation "m ;;; k" := (bind m (λ _, k))
  (at level 100, right associativity).

(** A Python callable, applied to its positional and keyword arguments. *)
Definition Kwargs : Type := gmap string PyVal.
Definition Callable : Type := list PyVal → Kwargs → Run PyVal.

(** ** Builtin string operations *)

Definition code (c : ascii) : N := N_of_ascii c.

(** [c.isspace()] for a code point below 256. *)
Definition is_space (c : ascii) : bool :=
  let n := code c in
  ((9 <=? n) && (n <=? 13) || (28 <=? n) && (n <=? 32)
   || (n =? 133) || (n =? 160))%N.

Fixpoint lstrip (s : string) : string :=
  match s with
  | String c s' => if is_space c then lstrip s' else s
  | EmptyString => EmptyString
  end.

Fixpoint rstrip (s : string) : string :=
  match s with
  | String c s' =>
      match rstrip s' with
      | EmptyString => if is_space c then EmptyString else String c EmptyString
      | r => String c r
      end
  | EmptyString => EmptyString
  end.

(** [s.strip()] *)
Definition strip (s : string) : string := rstrip (lstrip s).

(** [c.lower()] for a code point below 256: A-Z and the Latin-1 capitals. *)
Definition lower_char (c : ascii) : ascii :=
  let n := code c in
  if ((65 <=? n) && (n <=? 90)
      || (192 <=? n) && (n <=? 222) && negb (n =? 215))%N
  then ascii_of_N (n + 32) else c.

(** [s.lower()] *)
Fixpoint lower (s : string) : string :=
  match s with
  | String c s' => String (lower_char c) (lower s')
  | EmptyString => EmptyString
  end.

(** [d.setdefault(k, v)], for its effect on [d]. *)
Definition setdefault {V} (k : string) (v : V) (d : gmap string V) : gmap string V :=
  match d !! k with
  | Some _ => d
  | None => <[k := v]> d
  end.

(** *** [str.format]

    [template.format( **kwargs )] on the fragment of the format mini-language
    made of literal text, the escapes [{{] and [}}], and replacement fields
    [{name}].  No positional argument is ever passed by this module, so a
    field that is empty or a number raises [IndexError].  Conversions
    ([!r]), format specifications ([:>5]), attribute and index lookups and
    nested fields are outside the fragment. *)

Definition is_digit (c : ascii) : bool :=
  let n := code c in ((48 <=? n) && (n <=? 57))%N.

Fixpoint all_digits (s : string) : bool :=
  match s with
  | String c s' => is_digit c && all_digits s'
  | EmptyString => true
  end.

Definition field_special (c : ascii) : bool :=
  existsb (Ascii.eqb c) ["{"; "!"; ":"; "."; "["]%char.

Definition format_field (name : string) (kw : Kwargs) : Outcome string :=
  if all_digits name
  then Raise (IndexError "Replacement index out of range for positional args tuple")
  else match kw !! name with
       | Some v => Normal (py_str v)
       | None => Raise (KeyError ("'" +:+ name +:+ "'"))
       end.

Definition prefix_outcome (p : string) (o : Outcome string) : Outcome string :=
  match o with
  | Normal s => Normal (p +:+ s)
  | Raise ex => Raise ex
  end.

(** [field] is [None] in literal text, and [Some name] inside a replacement
    field whose name read so far is [name]. *)
Fixpoint format_from (t : string) (field : option string) (kw : Kwargs)
  : Outcome string :=
  match t with
  | EmptyString =>
      match field with
      | None => Normal ""
      | Some _ => Raise (ValueError "expected '}' before end of string")
      end
  | String c t' =>
      match field with
      | None =>
          if Ascii.eqb c "{" then
            match t' with
            | EmptyString =>
                Raise (ValueError "Single '{' encountered in format string")
            | String c' t'' =>
                if Ascii.eqb c' "{"
                then prefix_outcome "{" (format_from t'' None kw)
                else format_from t' (Some "") kw
            end
          else if Ascii.eqb c "}" then
            match t' with
            | String c' t'' =>
                if Ascii.eqb c' "}"
                then prefix_outcome "}" (format_from t'' None kw)
                else Raise (ValueError "Single '}' encountered in format string")
            | EmptyString =>
                Raise (ValueError "Single '}' encountered in format string")
            end
          else prefix_outcome (String c "") (format_from t' None kw)
      | Some name =>
          if Ascii.eqb c "}" then
            match format_field name kw with
            | Normal s => prefix_outcome s (format_from t' None kw)
            | Raise ex => Raise ex
            end
          else if field_special c then
            Raise (Unmodelled "format field outside the {name} fragment")
          else format_from t' (Some (name +:+ String c "")) kw
      end
  end.

Definition format (template : string) (kw : Kwargs) : Outcome string :=
  format_from template None kw.

(** *** [sorted] on strings

    [sorted] is a stable sort under [<]; on [str] that is lexicographic
    code-point order.  A merge sort stands for it: a sorted rearrangement of
    a list under a total order that is antisymmetric is unique, so the two
    return the same list. *)

Definition str_le (a b : string) : Prop := (a <=? b)%string = true.

#[global] Instance str_le_dec : RelDecision str_le.
Proof. intros a b. unfold str_le. apply _. Defined.

Definition sorted (l : list string) : list string := merge_sort str_le l.

(** ** The validators (source lines 22-34) *)

(** The [ctx] and [param] that click hands to an option callback. *)
Inductive ClickContext : Type := Ctx.
Inductive ClickParam : Type := Param (name : string).

Definition Validator : Type := ClickContext → ClickParam → string → Outcome string.

Section validate_ip.
(** [ipaddress.ip_address] of the Python library: an address object, or the
    exception it raises. *)
Context {IPAddress : Type}.
Variable ip_address : string → Outcome IPAddress.

Definition validate_ip (ctx : ClickContext) (param : ClickParam) (value : string)
  : Outcome string :=
  match ip_address value with
  | Normal _ => Normal value
  | Raise ex =>
      if isinstance ex "ValueError"
      then Raise (BadParameter ("Invalid IP: " +:+ exc_str ex))
      else Raise ex
  end.
End validate_ip.

Definition validate_token (ctx : ClickContext) (param : ClickParam) (value : string)
  : Outcome string :=
  let token_len := String.length value in
  if negb (token_len =? 32)%nat
  then Raise (BadParameter ("Token length != 32 chars: " +:+ pretty token_len))
  else Normal value.

(** ** [ExceptionHandlerGroup] (source lines 37-49) *)

Module ExceptionHandlerGroup.

(** [main] is [click.Group.main], the whole program invocation. *)
Definition __call__ (main : Callable) (args : list PyVal) (kwargs : Kwargs)
  : Run PyVal :=
  match main args kwargs with
  | (out, Normal v) => (out, Normal v)
  | (out, Raise ex) =>
      if isinstance ex "miio.DeviceException" then
        (out ++ [LogDebug "Exception: %s" ex true;
                 Echo (style ("Error: " +:+ exc_str ex) "red" true)],
         Normal VNone)
      else (out, Raise ex)
  end.

End ExceptionHandlerGroup.

(** ** [DeviceGroup.Command], the command descriptor (source lines 86-110) *)

(** A function object as the descriptor reads it. *)
Record PyFunction : Type := mkFunction {
  __name__ : string;
  __doc__ : option string;
  body : Callable
}.

Definition doc_value (f : PyFunction) : PyVal :=
  match __doc__ f with
  | Some d => VStr d
  | None => VNone
  end.

(** What [click.command(name, **attrs)(f)] builds. *)
Record RunnableCommand : Type := click_command {
  cmd_name : string;
  cmd_attrs : gmap string PyVal;
  cmd_callback : Callable
}.

Module Command.

Record t : Type := mk {
  name : option string;
  decorators : list (Callable → Callable);
  kwargs : gmap string PyVal;
  func : option PyFunction
}.

Definition __init__ (name : option string) (decorators : list (Callable → Callable))
           (kwargs : gmap string PyVal) : t :=
  {| name := name;
     decorators := reverse decorators;
     kwargs := kwargs;
     func := None |}.

(** [self.name or self.func.__name__.lower()] *)
Definition command_name (self : t) : Outcome string :=
  let of_func :=
    match func self with
    | Some f => Normal (lower (__name__ f))
    | None => Raise (AttributeError "'Command' object has no attribute 'func'")
    end in
  match name self with
  | Some n => if String.eqb n "" then of_func else Normal n
  | None => of_func
  end.

(** Decorating a method: the descriptor as it is afterwards.  The method
    itself is returned unchanged, carrying the descriptor as its
    [_device_group_command] attribute. *)
Definition __call__ (self : t) (func : PyFunction) : t :=
  {| name := name self;
     decorators := decorators self;
     kwargs := setdefault "help" (doc_value func) (kwargs self);
     func := Some func |}.

Definition wrap (self : t) (func : Callable) : Outcome RunnableCommand :=
  let func := fold_left (λ func decorator, decorator func) (decorators self) func in
  match command_name self with
  | Normal n => Normal (click_command n (kwargs self) func)
  | Raise ex => Raise ex
  end.

(** [owner] is the device instance, as the methods [getattr] finds on it. *)
Definition call (self : t) (owner : gmap string Callable)
           (args : list PyVal) (kwargs : Kwargs) : Run PyVal :=
  match func self with
  | None => raise (AttributeError "'Command' object has no attribute 'func'")
  | Some f =>
      match owner !! __name__ f with
      | Some method => method args kwargs
      | None => raise (AttributeError ("object has no attribute '" +:+ __name__ f +:+ "'"))
      end
  end.

End Command.

(** [device_command( *decorators, name=None, **kwargs )] *)
Definition device_command (decorators : list (Callable → Callable))
           (name : option string) (kwargs : gmap string PyVal) : Command.t :=
  Command.__init__ name decorators kwargs.

(** ** [DeviceGroupMeta], the class-construction hook (source lines 57-81) *)

(** A value bound in a class body, as the hook inspects it: whether it is
    callable, and its [_device_group_command] attribute if it has one.  The
    hook only reads, so the descriptor is the one the value carries when the
    class body has finished. *)
Record PyAttr : Type := mkAttr {
  is_callable : bool;
  _device_group_command : option Command.t
}.

(** The method [func] after [@device_command(...)] was applied to it. *)
Definition decorated (cmd : Command.t) (func : PyFunction) : PyAttr :=
  mkAttr true (Some (Command.__call__ cmd func)).

Inductive Factory : Type :=
  | OwnFactory       (* the class body defines get_device_group *)
  | DefaultFactory.  (* classmethod(lambda dcls: DeviceGroup(dcls)) *)

(** A class, as this module uses one: its name, and the two attributes the
    hook stores.  A class built without the hook has no command table. *)
Record PyClass : Type := mkClass {
  cls_name : string;
  _device_group_commands : option (gmap string Command.t);
  get_device_group : option Factory
}.

Module DeviceGroupMeta.

(** The loop over [namespace.items()], threading [commands]. *)
Fixpoint collect (items : list (string * PyAttr)) (commands : gmap string Command.t)
  : Outcome (gmap string Command.t) :=
  match items with
  | [] => Normal commands
  | (key, val) :: rest =>
      if negb (is_callable val) then collect rest commands
      else match _device_group_command val with
           | None => collect rest commands
           | Some device_group_command =>
               match Command.command_name device_group_command with
               | Normal n => collect rest (<[n := device_group_command]> commands)
               | Raise ex => Raise ex
               end
           end
  end.

(** [namespace] lists the class body's bindings in the order in which
    [namespace.items()] yields them, which is the order in which the class
    body first bound each name.  The last statement of the source, adding the
    class to the module-level set [device_classes], leaves the class unchanged
    and is read by nothing in the module. *)
Definition __new__ (name : string) (bases : list string)
           (namespace : list (string * PyAttr)) : Outcome PyClass :=
  match collect namespace ∅ with
  | Raise ex => Raise ex
  | Normal commands =>
      Normal {| cls_name := name;
                _device_group_commands := Some commands;
                get_device_group :=
                  if existsb (λ kv, String.eqb (fst kv) "get_device_group") namespace
                  then Some OwnFactory else Some DefaultFactory |}
  end.

End DeviceGroupMeta.

(** What the hook takes from a binding: the descriptor of a callable that
    carries one. *)
Definition descriptor_of (val : PyAttr) : option Command.t :=
  if is_callable val then _device_group_command val else None.

(** The descriptor of a binding that registers under the command name [n]. *)
Definition registers (n : string) (val : PyAttr) : option Command.t :=
  match descriptor_of val with
  | Some cmd =>
      match Command.command_name cmd with
      | Normal n' => if String.eqb n' n then Some cmd else None
      | Raise _ => None
      end
  | None => None
  end.

(** The descriptor of the last binding of [items] that registers under [n]. *)
Fixpoint last_registered (n : string) (items : list (string * PyAttr))
  : option Command.t :=
  match items with
  | [] => None
  | (_, val) :: rest =>
      match last_registered n rest with
      | Some cmd => Some cmd
      | None => registers n val
      end
  end.

(** A binding whose descriptor, if it has one, has a command name: one with
    a name of its own, or one that was applied to a function. *)
Definition derivable (kv : string * PyAttr) : bool :=
  match descriptor_of (snd kv) with
  | Some cmd => is_normal (Command.command_name cmd)
  | None => true
  end.

(** ** [DeviceGroup], the command group (source lines 84-157) *)

(** [click.Option(param_decls, required=.., callback=..)] *)
Record ClickOption : Type := Option {
  param_decls : list string;
  required : bool;
  callback : option Validator
}.

Inductive GroupCallback : Type :=
  | PassContextGroupCallback   (* click.pass_context(self.group_callback) *)
  | CallerCallback (c : Callable).

(** The keyword arguments [**attrs] of the constructor: the two keys the
    constructor looks at, and the others. *)
Record Attrs : Type := mkAttrs {
  attrs_params : option (list ClickOption);
  attrs_callback : option GroupCallback;
  attrs_other : gmap string PyVal
}.

Inductive ResultCallback : Type :=
  | AsGiven (c : Callable)
  | DevicePass (c : Callable).   (* self.device_pass(result_callback) *)

Module DeviceGroup.

Record t : Type := mk {
  commands : gmap string Command.t;
  device_class : PyClass;
  name : string;
  invoke_without_command : bool;
  no_args_is_help : option bool;
  subcommand_metavar : option string;
  chain : bool;
  result_callback : option ResultCallback;
  params : list ClickOption;
  group_callback : GroupCallback;
  other_attrs : gmap string PyVal
}.

Section init.
Context {IPAddress : Type}.
Variable ip_address : string → Outcome IPAddress.

Definition DEFAULT_PARAMS : list ClickOption :=
  [ Option ["--ip"] true (Some (validate_ip ip_address));
    Option ["--token"] true (Some validate_token) ].

Definition __init__ (device_class : PyClass) (name : option string)
           (invoke_without_command : bool) (no_args_is_help : option bool)
           (subcommand_metavar : option string) (chain : bool)
           (result_callback : option Callable)
           (result_callback_pass_device : bool) (attrs : Attrs) : Outcome t :=
  match _device_group_commands device_class with
  | None =>
      Raise (RuntimeError
               ("Class {} doesn't use DeviceGroupMeta meta class."
                +:+ " It can't be used with DeviceGroup."))
  | Some commands =>
      let params := default DEFAULT_PARAMS (attrs_params attrs) in
      let callback := default PassContextGroupCallback (attrs_callback attrs) in
      let result_callback :=
        match result_callback with
        | Some c => if result_callback_pass_device
                    then Some (DevicePass c) else Some (AsGiven c)
        | None => None
        end in
      let name :=
        match name with
        | Some n => if String.eqb n "" then lower (cls_name device_class) else n
        | None => lower (cls_name device_class)
        end in
      Normal {| commands := commands;
                device_class := device_class;
                name := name;
                invoke_without_command := invoke_without_command;
                no_args_is_help := no_args_is_help;
                subcommand_metavar := subcommand_metavar;
                chain := chain;
                result_callback := result_callback;
                params := params;
                group_callback := callback;
                other_attrs := attrs_other attrs |}
  end.

(** The factory the hook installs: [DeviceGroup(dcls)], every other
    argument at its default. *)
Definition default_get_device_group (dcls : PyClass) : Outcome t :=
  __init__ dcls None false None None false None true (mkAttrs None None ∅).
End init.

Definition list_commands (self : t) (ctx : ClickContext) : list string :=
  sorted (map fst (map_to_list (commands self))).

End DeviceGroup.

(** ** [GlobalContextObject] (source lines 52-54) *)

Record GlobalContextObject : Type := mkGlobalContextObject {
  debug : Z
}.

(** [GlobalContextObject()]: the debug level defaults to 0. *)
Definition GlobalContextObject_default : GlobalContextObject :=
  mkGlobalContextObject 0.

(** ** The dispatch methods of [DeviceGroup] (source lines 141-154) *)

(** A device instance, as the methods [getattr] finds on it. *)
Definition Device : Type := gmap string Callable.

Module Dispatch.

Section dispatch.
(** The click context, and what the methods ask of it and of the device
    class: [ctx.find_object(GlobalContextObject)], the assignment
    [ctx.obj = device], the constructor call [self.device_class(...)], and
    the decorator [self.device_pass] that click made for the device class. *)
Context {C : Type}.
Variable find_object : C → option GlobalContextObject.
Variable set_obj : Device → C → C.
Variable construct : PyClass → list PyVal → Kwargs → Run Device.
Variable device_pass : PyClass → (Device → Callable) → Callable.

(** The context after the callback stands for the effect on [ctx]. *)
Definition group_callback (self : DeviceGroup.t) (ctx : C)
           (args : list PyVal) (kwargs : Kwargs) : Run C :=
  let gco := find_object ctx in
  let kwargs :=
    match gco with
    | Some gco => <["debug" := VInt (debug gco)]> kwargs
    | None => kwargs
    end in
  device <~ construct (DeviceGroup.device_class self) args kwargs ;;
  ret (set_obj device ctx).

Definition command_callback (self : DeviceGroup.t) (command : Command.t)
           (device : Device) (args : list PyVal) (kwargs : Kwargs) : Run PyVal :=
  Command.call command device args kwargs.

Definition get_command (self : DeviceGroup.t) (ctx : C) (cmd_name : string)
  : Outcome RunnableCommand :=
  match DeviceGroup.commands self !! cmd_name with
  | None => Raise (KeyError ("'" +:+ cmd_name +:+ "'"))
  | Some cmd =>
      Command.wrap cmd
        (device_pass (DeviceGroup.device_class self) (command_callback self cmd))
  end.
End dispatch.

End Dispatch.

(** The registrations a class body makes, in order: the command name and the
    descriptor of every callable that carries a descriptor with a name. *)
Fixpoint registrations (items : list (string * PyAttr)) : list (string * Command.t) :=
  match items with
  | [] => []
  | (_, val) :: rest =>
      match descriptor_of val with
      | Some cmd =>
          match Command.command_name cmd with
          | Normal n => (n, cmd) :: registrations rest
          | Raise _ => registrations rest
          end
      | None => registrations rest
      end
  end.

(** The table of a class the hook built. *)
Definition table_of (o : Outcome PyClass) : Outcome (option (gmap string Command.t)) :=
  match o with
  | Normal cls => Normal (_device_group_commands cls)
  | Raise ex => Raise ex
  end.

(** ** [echo_return_status] (source lines 164-184) *)

(** [Union[str, callable]] *)
Inductive Fmt : Type :=
  | FmtStr (s : string)
  | FmtCallable (f : Callable).

(** [bool(fmt)]: a function is always true. *)
Definition fmt_truthy (fmt : Fmt) : bool :=
  match fmt with
  | FmtStr s => negb (String.eqb s "")
  | FmtCallable _ => true
  end.

(** [fmt( **kwargs )] or [fmt.format( **kwargs )] *)
Definition render (fmt : Fmt) (kwargs : Kwargs) : Run PyVal :=
  match fmt with
  | FmtCallable f => f [] kwargs
  | FmtStr s =>
      match format s kwargs with
      | Normal m => ret (VStr m)
      | Raise ex => raise ex
      end
  end.

(** [msg.strip()] *)
Definition py_strip (msg : PyVal) : Outcome string :=
  match msg with
  | VStr s => Normal (strip s)
  | _ => Raise (AttributeError "object has no attribute 'strip'")
  end.

(** The block the wrapper runs before and after the call:
    [if fmt: msg = ...; if msg: click.echo(msg.strip())]. *)
Definition echo_status (fmt : Fmt) (kwargs : Kwargs) : Run unit :=
  if fmt_truthy fmt then
    msg <~ render fmt kwargs ;;
    if truthy msg then
      s <~ lift (py_strip msg) ;;
      emit (Echo (plain s))
    else ret tt
  else ret tt.

Definition default_msg_fmt : Fmt := FmtStr "".
Definition default_result_msg_fmt : Fmt := FmtStr "{result}".

Definition echo_return_status (msg_fmt result_msg_fmt : Fmt) : Callable → Callable :=
  λ func,
    let wrap : Callable := λ args kwargs,
      echo_status msg_fmt kwargs ;;;
      result <~ func args kwargs ;;
      let kwargs := <["result" := result]> kwargs in
      echo_status result_msg_fmt kwargs ;;;
      ret VNone
    in wrap.

(** ** Sample inputs

    Concrete classes, functions and an address reader on which the
    definitions above are evaluated below. *)

(** A reader of dotted-quad IPv4 literals, standing in for
    [ipaddress.ip_address] where a concrete one is needed.  It raises the
    library's [ValueError], whose text names the rejected input. *)
Fixpoint split_dots (s : string) (cur : string) : list string :=
  match s with
  | EmptyString => [cur]
  | String c s' =>
      if Ascii.eqb c "."
      then cur :: split_dots s' ""
      else split_dots s' (cur +:+ String c "")
  end.

Fixpoint decimal_value (s : string) (acc : N) : N :=
  match s with
  | EmptyString => acc
  | String c s' => decimal_value s' (acc * 10 + (code c - 48))%N
  end.

Definition octet (s : string) : option N :=
  if all_digits s && (1 <=? String.length s)%nat && (String.length s <=? 3)%nat
     && (decimal_value s 0 <=? 255)%N
  then Some (decimal_value s 0) else None.

Definition quoted (s : string) : string := "'" +:+ s +:+ "'".

Definition not_an_address (value : string) : PyExc :=
  ValueError (quoted value +:+ " does not appear to be an IPv4 or IPv6 address").

Definition dotted_quad_ip_address (value : string) : Outcome (list N) :=
  match split_dots value "" with
  | [a; b; c; d] =>
      match octet a, octet b, octet c, octet d with
      | Some a, Some b, Some c, Some d => Normal [a; b; c; d]
      | _, _, _, _ => Raise (not_an_address value)
      end
  | _ => Raise (not_an_address value)
  end.

(** A function without effects that returns [v]. *)
Definition returning (v : PyVal) : Callable := λ _ _, ret v.

(** A method of a device class. *)
Definition method (name : string) (doc : option string) : PyFunction :=
  mkFunction name doc (returning VNone).

(** A decorator that announces itself before calling what it wraps, so that
    the nesting of wrappers shows in the output. *)
Definition announcing (tag : string) : Callable → Callable :=
  λ func args kwargs, emit (Echo (plain tag)) ;;; func args kwargs.

(** [class Light: status, on, off], each decorated with [@device_command()]. *)
Definition Light_namespace : list (string * PyAttr) :=
  [ ("status", decorated (device_command [] None ∅) (method "status" (Some "Show status.")));
    ("on", decorated (device_command [] None ∅) (method "on" None));
    ("off", decorated (device_command [] None ∅) (method "off" None)) ].

(** A class body with two methods, [Status] and then [status], both
    decorated: they derive to the same command name. *)
Definition Status_first : PyFunction := method "Status" (Some "first").
Definition status_second : PyFunction := method "status" (Some "second").
Definition Clash_namespace : list (string * PyAttr) :=
  [ ("Status", decorated (device_command [] None ∅) Status_first);
    ("limit", mkAttr false None);
    ("status", decorated (device_command [] None ∅) status_second) ].

(** A subclass of [miio.DeviceException]. *)
Definition DeviceError (msg : string) : PyExc :=
  mkExc "miio.DeviceError" ["miio.DeviceException"; "Exception"; "BaseException"] msg.

(** A program that prints a line and then fails with [ex]. *)
Definition failing_main (ex : PyExc) : Callable :=
  λ _ _, emit (Echo (plain "Connecting")) ;;; raise ex.

(** The class the hook builds from [Light_namespace], and a group on it. *)
Definition Light_commands : gmap string Command.t :=
  <["off" := Command.__call__ (device_command [] None ∅) (method "off" None)]>
    (<["on" := Command.__call__ (device_command [] None ∅) (method "on" None)]>
       (<["status" := Command.__call__ (device_command [] None ∅)
                        (method "status" (Some "Show status."))]> ∅)).

Definition Light_class : PyClass :=
  mkClass "Light" (Some Light_commands) (Some DefaultFactory).

Definition Light_group (attrs : Attrs) : Outcome DeviceGroup.t :=
  DeviceGroup.__init__ dotted_quad_ip_address Light_class None false None None
    false None true attrs.

Definition option_names (g : DeviceGroup.t) : list (list string) :=
  map param_decls (DeviceGroup.params g).

(** A device with the three methods of [Light_namespace], and a click
    context reduced to the two objects the dispatch looks for. *)
Definition Light_device : Device :=
  <["status" := returning (VStr "on")]>
    (<["on" := returning VNone]> (<["off" := returning VNone]> ∅)).

Record SampleCtx : Type := mkSampleCtx {
  ctx_global : option GlobalContextObject;
  ctx_obj : option Device
}.

Definition sample_set_obj (device : Device) (ctx : SampleCtx) : SampleCtx :=
  mkSampleCtx (ctx_global ctx) (Some device).

(** A constructor that reports the debug level it was given. *)
Definition sample_construct (cls : PyClass) : list PyVal → Kwargs → Run Device :=
  λ args kwargs,
    emit (Echo (plain ("debug=" +:+ from_option py_str "unset" (kwargs !! "debug")))) ;;;
    ret Light_device.

(** [make_pass_decorator] on a context that holds [device]. *)
Definition pass_device (device : Device) (cls : PyClass)
  : (Device → Callable) → Callable :=
  λ f, f device.

(** The group the default factory builds on [Light_class]. *)
Definition Light_default_group : DeviceGroup.t :=
  {| DeviceGroup.commands := Light_commands;
     DeviceGroup.device_class := Light_class;
     DeviceGroup.name := "light";
     DeviceGroup.invoke_without_command := false;
     DeviceGroup.no_args_is_help := None;
     DeviceGroup.subcommand_metavar := None;
     DeviceGroup.chain := false;
     DeviceGroup.result_callback := None;
     DeviceGroup.params := DeviceGroup.DEFAULT_PARAMS dotted_quad_ip_address;
     DeviceGroup.group_callback := PassContextGroupCallback;
     DeviceGroup.other_attrs := ∅ |}.

(** A class that did not go through the hook. *)
Definition Plain_class : PyClass := mkClass "Plain" None None.

(** Mapping over an outcome. *)
Definition outcome_map {A B} (f : A → B) (o : Outcome A) : Outcome B :=
  match o with
  | Normal a => Normal (f a)
  | Raise ex => Raise ex
  end.

Definition outcome_bind {A B} (o : Outcome A) (k : A → Outcome B) : Outcome B :=
  match o with
  | Normal a => k a
  | Raise ex => Raise ex
  end.

(** * Properties *)

(** ** The order on strings *)

Lemma str_le_nil_l (s : string) : str_le "" s.
Proof. by destruct s. Qed.

Lemma str_le_cons (c1 c2 : ascii) (s1 s2 : string) :
  str_le (String c1 s1) (String c2 s2) ↔
  (code c1 < code c2)%N ∨ (c1 = c2 ∧ str_le s1 s2).
Proof.
  unfold str_le, String.leb, code. cbn [String.compare].
  unfold Ascii.compare.
  destruct (N.compare_spec (N_of_ascii c1) (N_of_ascii c2)) as [Heq|Hlt|Hgt].
  - assert (c1 = c2) as ->.
    { by rewrite <- (ascii_N_embedding c1), Heq, ascii_N_embedding. }
    split; [by right | intros [?|[_ ?]]; [lia | done]].
  - split; [by left | done].
  - split; [done | intros [?|[-> _]]; lia].
Qed.

#[global] Instance str_le_total : Total str_le.
Proof. intros a b. apply String.leb_total. Qed.

#[global] Instance str_le_antisymm : AntiSymm (=) str_le.
Proof. intros a b. apply String.leb_antisym. Qed.

#[global] Instance str_le_trans : Transitive str_le.
Proof.
  intros a. induction a as [|c1 a IH]; intros b c Hab Hbc.
  - apply str_le_nil_l.
  - destruct b as [|c2 b]; [done|]. destruct c as [|c3 c]; [done|].
    apply str_le_cons in Hab, Hbc. apply str_le_cons.
    destruct Hab as [?|[-> ?]], Hbc as [?|[-> ?]]; try (left; lia).
    right. split; [done | by eapply IH].
Qed.

Lemma sorted_Sorted (l : list string) : Sorted str_le (sorted l).
Proof. apply (Sorted_merge_sort str_le). Qed.

Lemma sorted_Permutation (l : list string) : sorted l ≡ₚ l.
Proof. apply (merge_sort_Permutation str_le). Qed.

(** Any sorted rearrangement of [l] is [sorted l]: the sorting algorithm
    cannot be told from the result. *)
Lemma sorted_unique (l l' : list string) :
  Sorted str_le l' → l' ≡ₚ l → l' = sorted l.
Proof.
  intros Hs Hp. apply (Sorted_unique str_le); [done | apply sorted_Sorted |].
  by rewrite sorted_Permutation.
Qed.

(** ** C3: listing the subcommands *)

Lemma keys_NoDup {V} (m : gmap string V) : NoDup (map fst (map_to_list m)).
Proof. apply (NoDup_fst_map_to_list m). Qed.

Lemma elem_of_keys {V} (m : gmap string V) (n : string) :
  n ∈ map fst (map_to_list m) ↔ is_Some (m !! n).
Proof.
  rewrite list_elem_of_fmap. split.
  - intros [[k v] [-> Hin]]. apply elem_of_map_to_list in Hin. by exists v.
  - intros [v Hv]. exists (n, v). split; [done | by apply elem_of_map_to_list].
Qed.

Lemma list_commands_elem_of (self : DeviceGroup.t) (ctx : ClickContext) (n : string) :
  n ∈ DeviceGroup.list_commands self ctx ↔ is_Some (DeviceGroup.commands self !! n).
Proof.
  unfold DeviceGroup.list_commands. by rewrite sorted_Permutation, elem_of_keys.
Qed.

Lemma list_commands_canonical (self : DeviceGroup.t) (ctx : ClickContext)
      (l : list string) :
  Sorted str_le l → NoDup l →
  (∀ n, n ∈ l ↔ is_Some (DeviceGroup.commands self !! n)) →
  l = DeviceGroup.list_commands self ctx.
Proof.
  intros Hs Hn Hl. apply sorted_unique; [done|].
  apply NoDup_Permutation; [done | apply keys_NoDup |].
  intros n. by rewrite Hl, elem_of_keys.
Qed.

(** C3. For every command group, [list_commands] returns the registered
    command names, each once, in lexicographic order, and it is the only
    such list, so the listing depends on nothing but the set of names; a
    group whose commands are named status, on and off lists
    off, on, status. *)
Theorem list_commands_sorted :
  (∀ (self : DeviceGroup.t) (ctx : ClickContext),
      Sorted str_le (DeviceGroup.list_commands self ctx)
      ∧ NoDup (DeviceGroup.list_commands self ctx)
      ∧ (∀ n, n ∈ DeviceGroup.list_commands self ctx
              ↔ is_Some (DeviceGroup.commands self !! n))
      ∧ (∀ l, Sorted str_le l → NoDup l →
              (∀ n, n ∈ l ↔ is_Some (DeviceGroup.commands self !! n)) →
              l = DeviceGroup.list_commands self ctx))
  ∧ (∀ (self : DeviceGroup.t) (ctx : ClickContext),
      (∀ n, is_Some (DeviceGroup.commands self !! n) ↔ n ∈ ["status"; "on"; "off"]) →
      DeviceGroup.list_commands self ctx = ["off"; "on"; "status"]).
Proof.
  split.
  - intros self ctx. split_and!.
    + apply sorted_Sorted.
    + unfold DeviceGroup.list_commands. rewrite sorted_Permutation. apply keys_NoDup.
    + apply list_commands_elem_of.
    + apply list_commands_canonical.
  - intros self ctx Hdom. symmetry. apply list_commands_canonical.
    + repeat constructor.
    + apply (bool_decide_unpack _). by vm_compute.
    + intros n. rewrite Hdom, !elem_of_cons, !elem_of_nil. tauto.
Qed.

(** ** C4: the token validator *)

Lemma validate_token_ok (ctx : ClickContext) (param : ClickParam) (value : string) :
  String.length value = 32 → validate_token ctx param value = Normal value.
Proof. intros H. unfold validate_token. by rewrite H. Qed.

Lemma validate_token_bad (ctx : ClickContext) (param : ClickParam) (value : string) :
  String.length value ≠ 32 →
  validate_token ctx param value =
    Raise (BadParameter ("Token length != 32 chars: " +:+ pretty (String.length value))).
Proof.
  intros H. unfold validate_token.
  by destruct (Nat.eqb_spec (String.length value) 32).
Qed.

(** C4. [validate_token] returns its input unchanged exactly when the input
    has 32 characters; on any other length it raises [click.BadParameter]
    with the length it found written in decimal at the end of the message;
    and whether it succeeds depends on the length alone, whatever the
    characters are. *)
Theorem validate_token_spec (ctx : ClickContext) (param : ClickParam) (value : string) :
  (validate_token ctx param value = Normal value ↔ String.length value = 32)
  ∧ (String.length value ≠ 32 ↔
       validate_token ctx param value =
         Raise (BadParameter
                  ("Token length != 32 chars: " +:+ pretty (String.length value))))
  ∧ (∀ other : string,
       String.length other = String.length value →
       is_normal (validate_token ctx param other)
       = is_normal (validate_token ctx param value)).
Proof.
  split_and!.
  - split; [|apply validate_token_ok].
    intros H. destruct (decide (String.length value = 32)) as [|Hne]; [done|].
    by rewrite (validate_token_bad _ _ _ Hne) in H.
  - split; [apply validate_token_bad|].
    intros H Hlen. by rewrite (validate_token_ok _ _ _ Hlen) in H.
  - intros other Hlen. unfold validate_token. rewrite Hlen.
    by destruct (String.length value =? 32)%nat.
Qed.

(** The boundary cases: 32 characters pass, 31 and 33 fail. *)
Example validate_token_32_31_33 :
  let a31 := "aaaaaaaaaaaaaaaaaaaaaaaaaaaaaaa" in
  validate_token Ctx (Param "token") (a31 +:+ "a") = Normal (a31 +:+ "a")
  ∧ validate_token Ctx (Param "token") a31
    = Raise (BadParameter "Token length != 32 chars: 31")
  ∧ validate_token Ctx (Param "token") (a31 +:+ "aa")
    = Raise (BadParameter "Token length != 32 chars: 33")
  ∧ validate_token Ctx (Param "token") "not hexadecimal, yet 32 chars !!"
    = Normal "not hexadecimal, yet 32 chars !!".
Proof. by vm_compute. Qed.

(** ** C5: the address validator *)

Section address_validator.
Context {IPAddress : Type}.
Variable ip_address : string → Outcome IPAddress.
(** [repr(value)] *)
Variable repr : string → string.
(** The library raises only this [ValueError] on a string. *)
Hypothesis ip_address_raises :
  ∀ value ex, ip_address value = Raise ex →
    ex = ValueError (repr value +:+ " does not appear to be an IPv4 or IPv6 address").

(** C5. [validate_ip] returns its input unchanged exactly when
    [ipaddress.ip_address] accepts it as an IPv4 or IPv6 literal; on every
    other string it raises [click.BadParameter], and the message carries the
    library's error text, which names the input. *)
Theorem validate_ip_spec (ctx : ClickContext) (param : ClickParam) (value : string) :
  (validate_ip ip_address ctx param value = Normal value
   ↔ ∃ a, ip_address value = Normal a)
  ∧ ((∀ a, ip_address value ≠ Normal a) →
     validate_ip ip_address ctx param value =
       Raise (BadParameter
                ("Invalid IP: " +:+ repr value
                 +:+ " does not appear to be an IPv4 or IPv6 address"))).
Proof.
  unfold validate_ip. destruct (ip_address value) as [a|ex] eqn:Hip.
  - split; [by split; [exists a|] | intros H; by destruct (H a)].
  - rewrite (ip_address_raises _ _ Hip). cbn. split; [|done].
    split; [done | by intros [a ?]].
Qed.
End address_validator.

Lemma dotted_quad_raises (value : string) (ex : PyExc) :
  dotted_quad_ip_address value = Raise ex →
  ex = ValueError (quoted value +:+ " does not appear to be an IPv4 or IPv6 address").
Proof.
  unfold dotted_quad_ip_address, not_an_address. intros H.
  repeat (case_match; simplify_eq; try done).
Qed.

Lemma validate_ip_spec_witness :
  validate_ip dotted_quad_ip_address Ctx (Param "ip") "192.168.0.7" = Normal "192.168.0.7"
  ∧ validate_ip dotted_quad_ip_address Ctx (Param "ip") "not-an-ip"
    = Raise (BadParameter
               "Invalid IP: 'not-an-ip' does not appear to be an IPv4 or IPv6 address").
Proof.
  split.
  - apply (validate_ip_spec dotted_quad_ip_address quoted dotted_quad_raises).
    exists [192; 168; 0; 7]%N. reflexivity.
  - apply (validate_ip_spec dotted_quad_ip_address quoted dotted_quad_raises
             Ctx (Param "ip") "not-an-ip").
    intros a. vm_compute. discriminate.
Defined.

(** ** C6: the exception handler *)

Lemma exception_handler_catches (main : Callable) (args : list PyVal) (kwargs : Kwargs)
      (out : list Event) (ex : PyExc) :
  main args kwargs = (out, Raise ex) →
  isinstance ex "miio.DeviceException" = true →
  ExceptionHandlerGroup.__call__ main args kwargs =
    (out ++ [LogDebug "Exception: %s" ex true;
             Echo (style ("Error: " +:+ exc_str ex) "red" true)],
     Normal VNone).
Proof. intros Hmain Hex. unfold ExceptionHandlerGroup.__call__. by rewrite Hmain, Hex. Qed.

Lemma exception_handler_passes (main : Callable) (args : list PyVal) (kwargs : Kwargs)
      (out : list Event) (ex : PyExc) :
  main args kwargs = (out, Raise ex) →
  isinstance ex "miio.DeviceException" = false →
  ExceptionHandlerGroup.__call__ main args kwargs = (out, Raise ex).
Proof. intros Hmain Hex. unfold ExceptionHandlerGroup.__call__. by rewrite Hmain, Hex. Qed.

(** C6. When the program invocation raises an exception of the
    device-library family, the handler returns normally with [None] after
    adding to the output one debug log record carrying the exception with its
    trace and one echoed line, "Error: ..." in bold red; an exception of any
    other class leaves the handler as it entered, nothing added. *)
Theorem exception_handler_spec (main : Callable) (args : list PyVal) (kwargs : Kwargs)
        (out : list Event) (ex : PyExc) :
  main args kwargs = (out, Raise ex) →
  (isinstance ex "miio.DeviceException" = true →
   ExceptionHandlerGroup.__call__ main args kwargs =
     (out ++ [LogDebug "Exception: %s" ex true;
              Echo (style ("Error: " +:+ exc_str ex) "red" true)],
      Normal VNone))
  ∧ (isinstance ex "miio.DeviceException" = false →
     ExceptionHandlerGroup.__call__ main args kwargs = (out, Raise ex)).
Proof.
  intros Hmain. split; intros Hex.
  - by apply exception_handler_catches.
  - by apply exception_handler_passes.
Qed.

(** A program that finishes is not touched by the handler. *)
Lemma exception_handler_normal (main : Callable) (args : list PyVal) (kwargs : Kwargs)
      (out : list Event) (v : PyVal) :
  main args kwargs = (out, Normal v) →
  ExceptionHandlerGroup.__call__ main args kwargs = (out, Normal v).
Proof. intros H. unfold ExceptionHandlerGroup.__call__. by rewrite H. Qed.

Lemma exception_handler_spec_witness :
  ExceptionHandlerGroup.__call__ (failing_main (DeviceError "no response")) [] ∅ =
    ([Echo (plain "Connecting");
      LogDebug "Exception: %s" (DeviceError "no response") true;
      Echo (style "Error: no response" "red" true)],
     Normal VNone)
  ∧ ExceptionHandlerGroup.__call__ (failing_main (KeyError "'x'")) [] ∅ =
      ([Echo (plain "Connecting")], Raise (KeyError "'x'")).
Proof.
  split.
  - apply (exception_handler_spec (failing_main (DeviceError "no response")) [] ∅
             [Echo (plain "Connecting")] (DeviceError "no response"));
      reflexivity.
  - apply (exception_handler_spec (failing_main (KeyError "'x'")) [] ∅
             [Echo (plain "Connecting")] (KeyError "'x'"));
      reflexivity.
Defined.

(** ** C9: a class without a command table *)

(** C9. Constructing a group from a class that carries no command table
    raises [RuntimeError] at once, whatever the other arguments are; the
    error matches neither [except] clause of the module, so the address
    validator does not turn it into a parameter error and the exception
    handler around the program lets it through. *)
Theorem unregistered_class_is_fatal {IPAddress : Type}
        (ip_address : string → Outcome IPAddress)
        (device_class : PyClass) (name : option string)
        (invoke_without_command : bool) (no_args_is_help : option bool)
        (subcommand_metavar : option string) (chain : bool)
        (result_callback : option Callable) (result_callback_pass_device : bool)
        (attrs : Attrs) :
  _device_group_commands device_class = None →
  ∃ ex,
    DeviceGroup.__init__ ip_address device_class name invoke_without_command
      no_args_is_help subcommand_metavar chain result_callback
      result_callback_pass_device attrs = Raise ex
    ∧ DeviceGroup.default_get_device_group ip_address device_class = Raise ex
    ∧ exc_class ex = "RuntimeError"
    ∧ isinstance ex "ValueError" = false
    ∧ isinstance ex "miio.DeviceException" = false
    ∧ ∀ (main : Callable) args kwargs out,
        main args kwargs = (out, Raise ex) →
        ExceptionHandlerGroup.__call__ main args kwargs = (out, Raise ex).
Proof.
  intros Hnone. eexists.
  unfold DeviceGroup.default_get_device_group, DeviceGroup.__init__. rewrite Hnone.
  split_and!; try reflexivity.
  intros main args kwargs out Hmain.
  by apply exception_handler_passes.
Qed.

Lemma unregistered_class_is_fatal_witness :
  ∃ ex,
    DeviceGroup.__init__ dotted_quad_ip_address Plain_class (Some "plain") false None
      None false None true (mkAttrs None None ∅) = Raise ex
    ∧ DeviceGroup.default_get_device_group dotted_quad_ip_address Plain_class = Raise ex
    ∧ exc_class ex = "RuntimeError"
    ∧ isinstance ex "ValueError" = false
    ∧ isinstance ex "miio.DeviceException" = false
    ∧ ∀ (main : Callable) args kwargs out,
        main args kwargs = (out, Raise ex) →
        ExceptionHandlerGroup.__call__ main args kwargs = (out, Raise ex).
Proof.
  apply (unregistered_class_is_fatal dotted_quad_ip_address Plain_class).
  reflexivity.
Defined.

(** ** C8: the parameters of a command group *)

Lemma init_registered {IPAddress : Type} (ip_address : string → Outcome IPAddress)
      (device_class : PyClass) (commands : gmap string Command.t)
      (name : option string) (invoke_without_command : bool)
      (no_args_is_help : option bool) (subcommand_metavar : option string)
      (chain : bool) (result_callback : option Callable)
      (result_callback_pass_device : bool) (attrs : Attrs) :
  _device_group_commands device_class = Some commands →
  ∃ g, DeviceGroup.__init__ ip_address device_class name invoke_without_command
         no_args_is_help subcommand_metavar chain result_callback
         result_callback_pass_device attrs = Normal g
       ∧ DeviceGroup.commands g = commands
       ∧ DeviceGroup.params g
         = default (DeviceGroup.DEFAULT_PARAMS ip_address) (attrs_params attrs).
Proof.
  intros H. unfold DeviceGroup.__init__. rewrite H. eexists. by split_and!.
Qed.

(** C8, as the code has it. A group built from a class that carries a
    command table gets, when the caller passes no [params], exactly two
    parameters: the required option [--ip] validated by [validate_ip] and the
    required option [--token] validated by [validate_token]; when the caller
    passes [params], the group gets exactly the caller's list. *)
Theorem group_params_spec {IPAddress : Type} (ip_address : string → Outcome IPAddress)
        (device_class : PyClass) (commands : gmap string Command.t)
        (name : option string) (invoke_without_command : bool)
        (no_args_is_help : option bool) (subcommand_metavar : option string)
        (chain : bool) (result_callback : option Callable)
        (result_callback_pass_device : bool) (attrs : Attrs) :
  _device_group_commands device_class = Some commands →
  ∃ g, DeviceGroup.__init__ ip_address device_class name invoke_without_command
         no_args_is_help subcommand_metavar chain result_callback
         result_callback_pass_device attrs = Normal g
       ∧ DeviceGroup.params g =
           match attrs_params attrs with
           | None => [ Option ["--ip"] true (Some (validate_ip ip_address));
                       Option ["--token"] true (Some validate_token) ]
           | Some caller_params => caller_params
           end.
Proof.
  intros H.
  destruct (init_registered ip_address device_class commands name
              invoke_without_command no_args_is_help subcommand_metavar chain
              result_callback result_callback_pass_device attrs H)
    as (g & Hg & _ & Hp).
  exists g. split; [done|]. rewrite Hp. by destruct (attrs_params attrs).
Qed.

Lemma group_params_spec_witness :
  ∃ g, Light_group (mkAttrs None None ∅) = Normal g
       ∧ DeviceGroup.params g =
           [ Option ["--ip"] true (Some (validate_ip dotted_quad_ip_address));
             Option ["--token"] true (Some validate_token) ].
Proof.
  apply (group_params_spec dotted_quad_ip_address Light_class Light_commands
           None false None None false None true (mkAttrs None None ∅)).
  reflexivity.
Defined.

(** C8, as the specification words it, fails twice over: the group built
    with no [params] has the options [--ip] and [--token] and none named
    [--address]; and the group built with a [params] of the caller's has the
    caller's option alone, neither default beside it. *)
Lemma group_params_counterexample :
  outcome_map option_names (Light_group (mkAttrs None None ∅))
  = Normal [["--ip"]; ["--token"]]
  ∧ outcome_map option_names
      (Light_group (mkAttrs (Some [Option ["--model"] false None]) None ∅))
    = Normal [["--model"]].
Proof. split; reflexivity. Qed.

(** ** C10 and C7: the echo decorator *)

Lemma bind_normal {A B} (m : Run A) (k : A → Run B) o1 a o2 r :
  m = (o1, Normal a) → k a = (o2, r) → bind m k = (o1 ++ o2, r).
Proof. intros -> Hk. unfold bind. by rewrite Hk. Qed.

Lemma bind_raise {A B} (m : Run A) (k : A → Run B) o1 ex :
  m = (o1, Raise ex) → bind m k = (o1, Raise ex).
Proof. by intros ->. Qed.

(** How the wrapper is put together: the block before, the call, the block
    after on the keyword arguments extended with [result]. *)
Lemma echo_return_status_steps (msg_fmt result_msg_fmt : Fmt) (func : Callable)
      (args : list PyVal) (kwargs : Kwargs) o1 o2 result :
  echo_status msg_fmt kwargs = (o1, Normal tt) →
  func args kwargs = (o2, Normal result) →
  echo_return_status msg_fmt result_msg_fmt func args kwargs =
    (o1 ++ o2 ++ fst (echo_status result_msg_fmt (<["result" := result]> kwargs)),
     match snd (echo_status result_msg_fmt (<["result" := result]> kwargs)) with
     | Normal _ => Normal VNone
     | Raise ex => Raise ex
     end).
Proof.
  intros H1 H2. unfold echo_return_status.
  eapply bind_normal; [done|]. eapply bind_normal; [done|].
  destruct (echo_status result_msg_fmt _) as [o3 [[]|ex]]; cbn.
  - by rewrite app_nil_r.
  - done.
Qed.

(** What one block prints, given what its template renders to. *)
Lemma echo_status_rendered (fmt : Fmt) (kwargs : Kwargs) o (m : string) :
  fmt_truthy fmt = true →
  render fmt kwargs = (o, Normal (VStr m)) →
  echo_status fmt kwargs =
    (o ++ (if String.eqb m "" then [] else [Echo (plain (strip m))]), Normal tt).
Proof.
  intros Hf Hr. unfold echo_status. rewrite Hf.
  eapply bind_normal; [done|]. cbn. by destruct (String.eqb m "").
Qed.

Lemma echo_status_disabled (fmt : Fmt) (kwargs : Kwargs) :
  fmt_truthy fmt = false → echo_status fmt kwargs = ([], Normal tt).
Proof. intros Hf. unfold echo_status. by rewrite Hf. Qed.

(** C10. Whatever the templates, the wrapped function and the arguments, a
    call of the wrapper that returns returns [None]; and with both messages
    switched off the wrapper is the wrapped function with its return value
    replaced by [None]. *)
Theorem echo_wrapper_returns_None (msg_fmt result_msg_fmt : Fmt) (func : Callable)
        (args : list PyVal) (kwargs : Kwargs) :
  match snd (echo_return_status msg_fmt result_msg_fmt func args kwargs) with
  | Normal v => v = VNone
  | Raise _ => True
  end
  ∧ (∀ out result,
       func args kwargs = (out, Normal result) →
       echo_return_status (FmtStr "") (FmtStr "") func args kwargs
       = (out, Normal VNone)).
Proof.
  split.
  - unfold echo_return_status, bind.
    destruct (echo_status msg_fmt kwargs) as [o1 [[]|?]]; [|done].
    destruct (func args kwargs) as [o2 [result|?]]; [|done].
    destruct (echo_status result_msg_fmt _) as [o3 [[]|?]]; done.
  - intros out result Hf.
    rewrite (echo_return_status_steps _ _ _ _ _ [] out result); [|done..].
    cbn. by rewrite app_nil_r.
Qed.

(** C7, as the code has it. With templates "doing {x}" and "got {result}",
    a function returning 10 and [x=5], the wrapper prints "doing 5", lets
    the function run, prints "got 10" and returns [None]. A block prints its
    message, trimmed, exactly when the message is not empty before trimming.
    The post block is rendered on the keyword arguments extended with
    [result] bound to the return value. *)
Theorem echo_return_status_spec :
  (∀ (func : Callable) (out : list Event),
      func [] (<["x" := VInt 5]> ∅) = (out, Normal (VInt 10)) →
      echo_return_status (FmtStr "doing {x}") (FmtStr "got {result}") func []
        (<["x" := VInt 5]> ∅)
      = ([Echo (plain "doing 5")] ++ out ++ [Echo (plain "got 10")], Normal VNone))
  ∧ (∀ (fmt : Fmt) (kwargs : Kwargs) (o : list Event) (m : string),
      fmt_truthy fmt = true →
      render fmt kwargs = (o, Normal (VStr m)) →
      echo_status fmt kwargs =
        (o ++ (if String.eqb m "" then [] else [Echo (plain (strip m))]), Normal tt))
  ∧ (∀ (msg_fmt result_msg_fmt : Fmt) (func : Callable) args kwargs o1 o2 result,
      echo_status msg_fmt kwargs = (o1, Normal tt) →
      func args kwargs = (o2, Normal result) →
      echo_return_status msg_fmt result_msg_fmt func args kwargs =
        (o1 ++ o2 ++ fst (echo_status result_msg_fmt (<["result" := result]> kwargs)),
         match snd (echo_status result_msg_fmt (<["result" := result]> kwargs)) with
         | Normal _ => Normal VNone
         | Raise ex => Raise ex
         end)).
Proof.
  split_and!.
  - intros func out Hf.
    by rewrite (echo_return_status_steps _ _ _ _ _ [Echo (plain "doing 5")] out
                  (VInt 10)).
  - apply echo_status_rendered.
  - apply echo_return_status_steps.
Qed.

(** C7, as the specification words it, fails on a message of blanks: it is
    empty after trimming, and the wrapper prints it, as an empty line. *)
Lemma echo_blank_counterexample :
  strip " " = ""
  ∧ echo_return_status (FmtStr " ") (FmtStr "") (returning (VInt 10)) [] ∅
    = ([Echo (plain "")], Normal VNone).
Proof. split; reflexivity. Qed.

(** ** C2: materializing a descriptor *)

(** The loop of [wrap] over the stored, reversed list nests the decorators
    in declaration order. *)
Lemma fold_left_reverse_decorators (decorators : list (Callable → Callable))
      (func : Callable) :
  fold_left (λ func decorator, decorator func) (reverse decorators) func
  = foldr (λ decorator func, decorator func) func decorators.
Proof.
  induction decorators as [|d ds IH]; [done|].
  rewrite reverse_cons, fold_left_app. cbn. by rewrite IH.
Qed.

Lemma command_name_decorated (cmd : Command.t) (func : PyFunction) :
  Command.command_name (Command.__call__ cmd func)
  = Normal (match Command.name cmd with
            | Some n => if String.eqb n "" then lower (__name__ func) else n
            | None => lower (__name__ func)
            end).
Proof.
  unfold Command.command_name, Command.__call__. cbn.
  destruct (Command.name cmd) as [n|]; [|done]. by destruct (String.eqb n "").
Qed.

Lemma lookup_setdefault {V} (k k' : string) (v : V) (d : gmap string V) :
  setdefault k v d !! k'
  = if decide (k = k') then Some (default v (d !! k)) else d !! k'.
Proof.
  unfold setdefault. destruct (d !! k) as [w|] eqn:Hk.
  - case_decide; [by subst; rewrite Hk | done].
  - case_decide; [subst; by rewrite lookup_insert_eq | by rewrite lookup_insert_ne].
Qed.

(** C2. Take a descriptor declared with the decorators [decorators], in that
    order, and applied to the method [func]. Materializing it around a
    callable [target] succeeds; the command's callback is
    [d1 (d2 (... (dn target)))], so the decorator declared first is the
    outermost wrapper and the one declared last was applied first; the
    command is registered under the descriptor's command name; and its
    [help] setting is the one given in the declaration or, when none was
    given, the method's documentation string, every other setting being
    passed on as declared. *)
Theorem wrap_materializes (name : option string)
        (decorators : list (Callable → Callable)) (kwargs : gmap string PyVal)
        (func : PyFunction) (target : Callable) :
  let cmd := Command.__call__ (device_command decorators name kwargs) func in
  ∃ rc,
    Command.wrap cmd target = Normal rc
    ∧ Command.command_name cmd = Normal (cmd_name rc)
    ∧ cmd_callback rc = foldr (λ decorator func, decorator func) target decorators
    ∧ (∀ first rest, decorators = first :: rest →
         cmd_callback rc
         = first (foldr (λ decorator func, decorator func) target rest))
    ∧ (∀ init last, decorators = init ++ [last] →
         cmd_callback rc
         = foldr (λ decorator func, decorator func) (last target) init)
    ∧ cmd_attrs rc !! "help"
      = match kwargs !! "help" with
        | Some h => Some h
        | None => Some (doc_value func)
        end
    ∧ (∀ k, k ≠ "help" → cmd_attrs rc !! k = kwargs !! k).
Proof.
  cbv zeta. unfold Command.wrap.
  rewrite (command_name_decorated (device_command decorators name kwargs) func).
  eexists. split; [reflexivity|]. cbn [cmd_name cmd_callback cmd_attrs].
  assert (cmd_callback_eq :
            fold_left (λ func decorator, decorator func)
              (Command.decorators
                 (Command.__call__ (device_command decorators name kwargs) func))
              target
            = foldr (λ decorator func, decorator func) target decorators)
    by apply fold_left_reverse_decorators.
  split_and!.
  - done.
  - done.
  - intros first rest ->. by rewrite cmd_callback_eq.
  - intros init last ->. by rewrite cmd_callback_eq, foldr_app.
  - cbn. rewrite lookup_setdefault. rewrite decide_True by done.
    by destruct (kwargs !! "help").
  - intros k Hk. cbn. rewrite lookup_setdefault. by rewrite decide_False.
Qed.

(** Two decorators that announce themselves: calling the materialized
    command prints the first-declared one first, the method's own docstring
    is the help text, and the command is named after the method in lower
    case. *)
Example wrap_announcing :
  let cmd := Command.__call__
               (device_command [announcing "first"; announcing "second"] None ∅)
               (method "Status" (Some "Show status.")) in
  outcome_map (λ rc, (cmd_name rc, cmd_attrs rc !! "help", cmd_callback rc [] ∅))
              (Command.wrap cmd (returning (VInt 1)))
  = Normal ("status", Some (VStr "Show status."),
            ([Echo (plain "first"); Echo (plain "second")], Normal (VInt 1))).
Proof. reflexivity. Qed.

(** ** C1: the command table built by the hook *)

Lemma collect_lookup (items : list (string * PyAttr))
      (commands commands' : gmap string Command.t) (n : string) :
  DeviceGroupMeta.collect items commands = Normal commands' →
  commands' !! n = match last_registered n items with
                   | Some cmd => Some cmd
                   | None => commands !! n
                   end.
Proof.
  revert commands. induction items as [|[key val] rest IH]; intros commands Hc.
  - cbn in *. by simplify_eq.
  - cbn in Hc. cbn [last_registered]. unfold registers, descriptor_of.
    destruct (is_callable val); cbn in Hc.
    + destruct (_device_group_command val) as [cmd|].
      * destruct (Command.command_name cmd) as [n'|ex]; [|done].
        rewrite (IH _ Hc). destruct (last_registered n rest); [done|].
        destruct (String.eqb_spec n' n) as [->|Hne].
        -- by rewrite lookup_insert_eq.
        -- by rewrite lookup_insert_ne.
      * rewrite (IH _ Hc). by destruct (last_registered n rest).
    + rewrite (IH _ Hc). by destruct (last_registered n rest).
Qed.

Lemma collect_total (items : list (string * PyAttr)) (commands : gmap string Command.t) :
  forallb derivable items = true →
  ∃ commands', DeviceGroupMeta.collect items commands = Normal commands'.
Proof.
  revert commands. induction items as [|[key val] rest IH]; intros commands Hd.
  - by eexists.
  - cbn in Hd. apply andb_true_iff in Hd as [Hval Hrest].
    unfold derivable, descriptor_of in Hval. cbn in *.
    destruct (is_callable val); cbn; [|by apply IH].
    destruct (_device_group_command val) as [cmd|]; [|by apply IH].
    destruct (Command.command_name cmd); [by apply IH | done].
Qed.

Lemma last_registered_app (n : string) (l1 l2 : list (string * PyAttr)) :
  last_registered n (l1 ++ l2)
  = match last_registered n l2 with
    | Some cmd => Some cmd
    | None => last_registered n l1
    end.
Proof.
  induction l1 as [|[key val] l1 IH]; cbn.
  - by destruct (last_registered n l2).
  - rewrite IH. by destruct (last_registered n l2).
Qed.

Lemma last_registered_is_Some (n : string) (items : list (string * PyAttr))
      key val cmd :
  (key, val) ∈ items → registers n val = Some cmd →
  is_Some (last_registered n items).
Proof.
  intros Hin Hr. induction items as [|[k v] rest IH]; [by apply elem_of_nil in Hin|].
  cbn. apply elem_of_cons in Hin as [?|Hin].
  - simplify_eq. rewrite Hr. by destruct (last_registered n rest).
  - destruct (IH Hin) as [c ->]. done.
Qed.

Lemma last_registered_Some (n : string) (items : list (string * PyAttr)) cmd :
  last_registered n items = Some cmd →
  ∃ key val, (key, val) ∈ items ∧ registers n val = Some cmd.
Proof.
  induction items as [|[k v] rest IH]; [done|]. cbn.
  destruct (last_registered n rest) as [c|].
  - intros ?; simplify_eq. destruct IH as (key & val & ? & ?); [done|].
    exists key, val. split; [by right | done].
  - intros Hr. exists k, v. split; [by left | done].
Qed.

Lemma registers_name (n : string) (val : PyAttr) (cmd : Command.t) :
  descriptor_of val = Some cmd → Command.command_name cmd = Normal n →
  registers n val = Some cmd.
Proof. intros Hd Hn. unfold registers. by rewrite Hd, Hn, String.eqb_refl. Qed.

Lemma filter_key_absent {V} (l : list (string * V)) (n : string) :
  n ∉ map fst l → filter (λ kv, fst kv = n) l = [].
Proof.
  induction l as [|[k w] l IH]; [done|]. intros Hn. cbn in Hn.
  apply not_elem_of_cons in Hn as [Hk Hl].
  rewrite filter_cons_False by (cbn; congruence). by apply IH.
Qed.

Lemma filter_key_unique {V} (l : list (string * V)) (n : string) (v : V) :
  NoDup (map fst l) → (n, v) ∈ l → filter (λ kv, fst kv = n) l = [(n, v)].
Proof.
  induction l as [|[k w] l IH]; intros Hnd Hin; [by apply elem_of_nil in Hin|].
  cbn in Hnd. apply NoDup_cons in Hnd as [Hk Hnd].
  apply elem_of_cons in Hin as [Heq|Hin].
  - simplify_eq. rewrite filter_cons_True by done. f_equal.
    by apply filter_key_absent.
  - rewrite filter_cons_False; [by apply IH|].
    cbn. intros ->. apply Hk. apply list_elem_of_fmap. by exists (n, v).
Qed.

(** A key of a map heads exactly one of its entries. *)
Lemma entries_of_key {V} (m : gmap string V) (n : string) (v : V) :
  m !! n = Some v →
  filter (λ kv, fst kv = n) (map_to_list m) = [(n, v)].
Proof.
  intros Hm. apply filter_key_unique.
  - apply keys_NoDup.
  - by apply elem_of_map_to_list.
Qed.

(** C1. Let every descriptor carried by a binding of the class body have a
    command name. Then the hook builds the class, and its command table maps
    each name to the descriptor of the last binding registering under it:
    every callable that carries a descriptor is collected under its command
    name, every entry comes from such a callable, and when two methods
    register under one name, with none after the second doing so, the table
    holds the second method's descriptor for that name, in one entry. *)
Theorem registry_last_declaration_wins (name : string) (bases : list string)
        (namespace : list (string * PyAttr)) :
  forallb derivable namespace = true →
  ∃ cls commands,
    DeviceGroupMeta.__new__ name bases namespace = Normal cls
    ∧ _device_group_commands cls = Some commands
    ∧ (∀ n, commands !! n = last_registered n namespace)
    ∧ (∀ key val cmd n,
         (key, val) ∈ namespace → descriptor_of val = Some cmd →
         Command.command_name cmd = Normal n → is_Some (commands !! n))
    ∧ (∀ n cmd,
         commands !! n = Some cmd →
         ∃ key val, (key, val) ∈ namespace ∧ descriptor_of val = Some cmd
                    ∧ Command.command_name cmd = Normal n)
    ∧ (∀ pre key1 val1 mid key2 val2 post cmd1 cmd2 n,
         namespace = pre ++ (key1, val1) :: mid ++ (key2, val2) :: post →
         descriptor_of val1 = Some cmd1 → descriptor_of val2 = Some cmd2 →
         Command.command_name cmd1 = Normal n →
         Command.command_name cmd2 = Normal n →
         last_registered n post = None →
         commands !! n = Some cmd2
         ∧ filter (λ kv, fst kv = n) (map_to_list commands) = [(n, cmd2)]).
Proof.
  intros Hd. destruct (collect_total namespace ∅ Hd) as [commands Hc].
  assert (Hl : ∀ n, commands !! n = last_registered n namespace).
  { intros n. rewrite (collect_lookup _ _ _ n Hc), lookup_empty.
    by destruct (last_registered n namespace). }
  eexists _, commands. unfold DeviceGroupMeta.__new__. rewrite Hc.
  split_and!; [reflexivity | reflexivity | done | | |].
  - intros key val cmd n Hin Hdesc Hn. rewrite Hl.
    eapply last_registered_is_Some; [done | by apply registers_name].
  - intros n cmd. rewrite Hl. intros Hlast.
    destruct (last_registered_Some _ _ _ Hlast) as (key & val & Hin & Hr).
    exists key, val. split; [done|]. unfold registers in Hr.
    destruct (descriptor_of val) as [c|]; [|done].
    destruct (Command.command_name c) as [n'|] eqn:Hn'; [|done].
    destruct (String.eqb_spec n' n); by simplify_eq.
  - intros pre key1 val1 mid key2 val2 post cmd1 cmd2 n -> _ Hd2 _ Hn2 Hpost.
    assert (commands !! n = Some cmd2) as Hcmd.
    { rewrite Hl, last_registered_app. cbn [last_registered].
      rewrite last_registered_app. cbn [last_registered].
      by rewrite Hpost, (registers_name _ _ _ Hd2 Hn2). }
    split; [done | by apply entries_of_key].
Qed.

Lemma registry_last_declaration_wins_witness :
  ∃ cls commands,
    DeviceGroupMeta.__new__ "Clash" [] Clash_namespace = Normal cls
    ∧ _device_group_commands cls = Some commands
    ∧ commands !! "status"
      = Some (Command.__call__ (device_command [] None ∅) status_second)
    ∧ filter (λ kv, fst kv = "status") (map_to_list commands)
      = [("status", Command.__call__ (device_command [] None ∅) status_second)].
Proof.
  destruct (registry_last_declaration_wins "Clash" [] Clash_namespace eq_refl)
    as (cls & commands & Hnew & Htable & _ & _ & _ & Hlast).
  exists cls, commands. split; [exact Hnew|]. split; [exact Htable|].
  apply (Hlast [] "Status" (decorated (device_command [] None ∅) Status_first)
           [("limit", mkAttr false None)]
           "status" (decorated (device_command [] None ∅) status_second) []
           (Command.__call__ (device_command [] None ∅) Status_first));
    reflexivity.
Defined.

(** The table the hook builds for the sample classes. *)
Example hook_on_samples :
  outcome_map (λ cls, (λ m, map fst (map_to_list m)) <$> _device_group_commands cls)
              (DeviceGroupMeta.__new__ "Clash" [] Clash_namespace)
  = Normal (Some ["status"])
  ∧ DeviceGroupMeta.__new__ "Light" [] Light_namespace = Normal Light_class
  ∧ outcome_map (λ g, DeviceGroup.list_commands g Ctx)
      (outcome_bind (DeviceGroupMeta.__new__ "Light" [] Light_namespace)
         (DeviceGroup.default_get_device_group dotted_quad_ip_address))
    = Normal ["off"; "on"; "status"].
Proof. split_and!; by vm_compute. Qed.

(** * Further properties of the code *)

(** ** The hook: when it fails, what it skips, what the table holds *)

Lemma command_name_raises (cmd : Command.t) (ex : PyExc) :
  Command.command_name cmd = Raise ex →
  ex = AttributeError "'Command' object has no attribute 'func'".
Proof.
  unfold Command.command_name. intros H.
  destruct (Command.name cmd) as [n|], (Command.func cmd);
    repeat case_match; by simplify_eq.
Qed.

Lemma collect_fails (items : list (string * PyAttr)) (commands : gmap string Command.t) :
  forallb derivable items = false →
  DeviceGroupMeta.collect items commands
  = Raise (AttributeError "'Command' object has no attribute 'func'").
Proof.
  revert commands. induction items as [|[key val] rest IH]; intros commands Hd; [done|].
  cbn in Hd. apply andb_false_iff in Hd. unfold derivable, descriptor_of in Hd.
  cbn in *. destruct (is_callable val); cbn.
  - destruct (_device_group_command val) as [cmd|].
    + destruct (Command.command_name cmd) as [n|ex] eqn:Hn.
      * apply IH. by destruct Hd.
      * by rewrite (command_name_raises _ _ Hn).
    + apply IH. by destruct Hd.
  - apply IH. by destruct Hd.
Qed.


Lemma collect_filter (items : list (string * PyAttr)) (commands : gmap string Command.t) :
  DeviceGroupMeta.collect (filter (λ kv, is_Some (descriptor_of (snd kv))) items) commands
  = DeviceGroupMeta.collect items commands.
Proof.
  revert commands. induction items as [|[key val] rest IH]; intros commands; [done|].
  rewrite filter_cons. case_decide as Hs; cbn in Hs; unfold descriptor_of in Hs; cbn.
  - destruct (is_callable val); cbn; [|by destruct Hs].
    destruct (_device_group_command val) as [cmd|]; [|by destruct Hs].
    by destruct (Command.command_name cmd).
  - rewrite IH. destruct (is_callable val); cbn; [|done].
    destruct (_device_group_command val) as [cmd|]; [|done].
    destruct Hs. by eexists.
Qed.

(** Bindings that are not callable, or that carry no descriptor, play no
    part: the table is the one the hook builds from the class body with
    those bindings removed, whatever the class is called and derives from.
    A value that carries a descriptor and is not callable is among the
    ignored. *)
Theorem hook_ignores_other_bindings (name name' : string) (bases bases' : list string)
        (namespace : list (string * PyAttr)) :
  table_of (DeviceGroupMeta.__new__ name bases namespace)
  = table_of (DeviceGroupMeta.__new__ name' bases'
                (filter (λ kv, is_Some (descriptor_of (snd kv))) namespace))
  ∧ (∀ key cmd,
       table_of (DeviceGroupMeta.__new__ name bases
                   (namespace ++ [(key, mkAttr false (Some cmd))]))
       = table_of (DeviceGroupMeta.__new__ name bases namespace)).
Proof.
  split.
  - unfold DeviceGroupMeta.__new__. rewrite collect_filter.
    by destruct (DeviceGroupMeta.collect namespace ∅).
  - intros key cmd. unfold DeviceGroupMeta.__new__.
    assert (∀ m, DeviceGroupMeta.collect (namespace ++ [(key, mkAttr false (Some cmd))]) m
                 = DeviceGroupMeta.collect namespace m) as ->.
    { induction namespace as [|[k v] rest IH]; intros m; [done|]. cbn.
      destruct (is_callable v); cbn; [|apply IH].
      destruct (_device_group_command v) as [c|]; [|apply IH].
      destruct (Command.command_name c); [apply IH | done]. }
    by destruct (DeviceGroupMeta.collect namespace ∅).
Qed.

Lemma collect_registrations (items : list (string * PyAttr))
      (commands : gmap string Command.t) :
  forallb derivable items = true →
  DeviceGroupMeta.collect items commands
  = Normal (list_to_map (reverse (registrations items)) ∪ commands).
Proof.
  revert commands. induction items as [|[key val] rest IH]; intros commands Hd.
  - cbn. by rewrite (left_id_L ∅ (∪)).
  - cbn in Hd. apply andb_true_iff in Hd as [Hval Hrest].
    unfold derivable in Hval. cbn [snd] in Hval.
    cbn [DeviceGroupMeta.collect registrations].
    unfold descriptor_of in *. destruct (is_callable val); cbn; [|by apply IH].
    destruct (_device_group_command val) as [cmd|]; [|by apply IH].
    destruct (Command.command_name cmd) as [n|]; [|done].
    rewrite (IH _ Hrest), reverse_cons, list_to_map_app. cbn.
    rewrite insert_empty, (insert_union_singleton_l commands).
    by rewrite (assoc_L (∪)).
Qed.

Lemma table_size_le (l : list (string * Command.t)) :
  (size (list_to_map l : gmap string Command.t) ≤ length l)%nat.
Proof.
  induction l as [|[k v] l IH]; [done|]. cbn. rewrite map_size_insert.
  destruct (list_to_map l !! k); cbn; lia.
Qed.

(** When every descriptor has a command name, the table has at most as many
    entries as the class body has decorated callables; and when no two of
    them derive the same name, the entries of the table are exactly their
    registrations, one entry each. *)
Theorem hook_table_entries (name : string) (bases : list string)
        (namespace : list (string * PyAttr)) :
  forallb derivable namespace = true →
  ∃ table,
    table_of (DeviceGroupMeta.__new__ name bases namespace) = Normal (Some table)
    ∧ (size table ≤ length (registrations namespace))%nat
    ∧ (NoDup (map fst (registrations namespace)) →
       map_to_list table ≡ₚ registrations namespace
       ∧ size table = length (registrations namespace)).
Proof.
  intros Hd. unfold DeviceGroupMeta.__new__.
  rewrite (collect_registrations namespace ∅ Hd), (right_id_L ∅ (∪)).
  eexists. split; [reflexivity|]. split.
  - etrans; [apply table_size_le|]. by rewrite length_reverse.
  - intros Hnd.
    assert (NoDup (reverse (registrations namespace)).*1) as Hnd'.
    { by rewrite fmap_reverse, reverse_Permutation. }
    split.
    + by rewrite (map_to_list_to_map _ Hnd'), reverse_Permutation.
    + by rewrite (map_size_list_to_map _ Hnd'), length_reverse.
Qed.

Lemma hook_table_entries_witness :
  ∃ table,
    table_of (DeviceGroupMeta.__new__ "Light" [] Light_namespace) = Normal (Some table)
    ∧ (size table ≤ 3)%nat
    ∧ (NoDup ["status"; "on"; "off"] →
       map_to_list table ≡ₚ registrations Light_namespace ∧ size table = 3).
Proof. apply (hook_table_entries "Light" [] Light_namespace). reflexivity. Defined.

(** ** From the hook to the group and its listing *)

Lemma hook_built (name : string) (bases : list string)
      (namespace : list (string * PyAttr)) (cls : PyClass) :
  DeviceGroupMeta.__new__ name bases namespace = Normal cls →
  forallb derivable namespace = true
  ∧ cls_name cls = name
  ∧ _device_group_commands cls
    = Some (list_to_map (reverse (registrations namespace)))
  ∧ get_device_group cls
    = Some (if existsb (λ kv, String.eqb (fst kv) "get_device_group") namespace
            then OwnFactory else DefaultFactory).
Proof.
  unfold DeviceGroupMeta.__new__. intros Hnew.
  destruct (forallb derivable namespace) eqn:Hd.
  - rewrite (collect_registrations namespace ∅ Hd), (right_id_L ∅ (∪)) in Hnew.
    simplify_eq. split_and!; try done. cbn. by destruct (existsb _ namespace).
  - by rewrite (collect_fails namespace ∅ Hd) in Hnew.
Qed.

Lemma registrations_lookup (namespace : list (string * PyAttr)) (n : string) :
  is_Some ((list_to_map (reverse (registrations namespace))
            : gmap string Command.t) !! n)
  ↔ n ∈ map fst (registrations namespace).
Proof.
  rewrite <- not_eq_None_Some, <- not_elem_of_list_to_map, fmap_reverse.
  rewrite elem_of_reverse. split; [|by intros ? []].
  intros H. by destruct (decide (n ∈ (registrations namespace).*1)).
Qed.

Lemma registrations_named (namespace : list (string * PyAttr)) n cmd :
  (n, cmd) ∈ registrations namespace → Command.command_name cmd = Normal n.
Proof.
  induction namespace as [|[key val] rest IH]; cbn; [by intros ?%elem_of_nil|].
  destruct (descriptor_of val) as [c|]; [|done].
  destruct (Command.command_name c) as [n'|] eqn:Hn; [|done].
  intros [?|?]%elem_of_cons; [by simplify_eq | by apply IH].
Qed.

(** The table of a hook-built class is keyed by the command names of its
    descriptors. *)
Lemma hook_table_keys (name : string) (bases : list string)
      (namespace : list (string * PyAttr)) (cls : PyClass) table n cmd :
  DeviceGroupMeta.__new__ name bases namespace = Normal cls →
  _device_group_commands cls = Some table →
  table !! n = Some cmd → Command.command_name cmd = Normal n.
Proof.
  intros Hnew Ht Hn. destruct (hook_built _ _ _ _ Hnew) as (_ & _ & Ht' & _).
  rewrite Ht in Ht'. simplify_eq.
  apply elem_of_list_to_map_2 in Hn. rewrite elem_of_reverse in Hn.
  exact (registrations_named _ _ _ Hn).
Qed.

(** The group constructor never raises on a class the hook built: the
    default factory yields a group on that class, named after the class in
    lower case, holding the class's command table and the default
    parameters. *)
Theorem factory_on_hooked_class {IPAddress : Type}
        (ip_address : string → Outcome IPAddress)
        (name : string) (bases : list string)
        (namespace : list (string * PyAttr)) (cls : PyClass) :
  DeviceGroupMeta.__new__ name bases namespace = Normal cls →
  ∃ g, DeviceGroup.default_get_device_group ip_address cls = Normal g
       ∧ DeviceGroup.device_class g = cls
       ∧ DeviceGroup.name g = lower name
       ∧ Some (DeviceGroup.commands g) = _device_group_commands cls
       ∧ DeviceGroup.params g = DeviceGroup.DEFAULT_PARAMS ip_address
       ∧ DeviceGroup.result_callback g = None.
Proof.
  intros Hnew. destruct (hook_built _ _ _ _ Hnew) as (_ & Hname & Ht & _).
  unfold DeviceGroup.default_get_device_group, DeviceGroup.__init__.
  rewrite Ht, Hname. eexists. by split_and!.
Qed.

Lemma factory_on_hooked_class_witness :
  ∃ g, DeviceGroup.default_get_device_group dotted_quad_ip_address Light_class = Normal g
       ∧ DeviceGroup.device_class g = Light_class
       ∧ DeviceGroup.name g = lower "Light"
       ∧ Some (DeviceGroup.commands g) = _device_group_commands Light_class
       ∧ DeviceGroup.params g = DeviceGroup.DEFAULT_PARAMS dotted_quad_ip_address
       ∧ DeviceGroup.result_callback g = None.
Proof.
  apply (factory_on_hooked_class dotted_quad_ip_address "Light" [] Light_namespace).
  by vm_compute.
Defined.

(** The group of a hook-built class lists exactly the command names that
    the decorated callables of the class body derive. *)
Theorem listing_of_hooked_class {IPAddress : Type}
        (ip_address : string → Outcome IPAddress)
        (name : string) (bases : list string)
        (namespace : list (string * PyAttr)) (cls : PyClass)
        (g : DeviceGroup.t) (ctx : ClickContext) (n : string) :
  DeviceGroupMeta.__new__ name bases namespace = Normal cls →
  DeviceGroup.default_get_device_group ip_address cls = Normal g →
  n ∈ DeviceGroup.list_commands g ctx ↔ n ∈ map fst (registrations namespace).
Proof.
  intros Hnew Hg. destruct (hook_built _ _ _ _ Hnew) as (_ & _ & Ht & _).
  unfold DeviceGroup.default_get_device_group, DeviceGroup.__init__ in Hg.
  rewrite Ht in Hg. simplify_eq.
  rewrite list_commands_elem_of. cbn. apply registrations_lookup.
Qed.

Lemma listing_of_hooked_class_witness :
  "on" ∈ DeviceGroup.list_commands Light_default_group Ctx
  ↔ "on" ∈ map fst (registrations Light_namespace).
Proof.
  apply (listing_of_hooked_class dotted_quad_ip_address "Light" [] Light_namespace
           Light_class).
  - by vm_compute.
  - reflexivity.
Defined.

(** ** Resolving and running a subcommand *)

Lemma wrap_named (cmd : Command.t) (target : Callable) (n : string) :
  Command.command_name cmd = Normal n →
  Command.wrap cmd target
  = Normal (click_command n (Command.kwargs cmd)
              (fold_left (λ func decorator, decorator func)
                         (Command.decorators cmd) target)).
Proof. intros Hn. unfold Command.wrap. by rewrite Hn. Qed.

(** On the group of a hook-built class, listing and resolving agree: every
    listed name resolves to a command of that very name, and resolving any
    other name raises [KeyError] on the name. *)
Theorem listed_iff_resolvable {IPAddress C : Type}
        (ip_address : string → Outcome IPAddress)
        (device_pass : PyClass → (Device → Callable) → Callable)
        (name : string) (bases : list string)
        (namespace : list (string * PyAttr)) (cls : PyClass)
        (g : DeviceGroup.t) (ctx : ClickContext) (c : C) (n : string) :
  DeviceGroupMeta.__new__ name bases namespace = Normal cls →
  DeviceGroup.default_get_device_group ip_address cls = Normal g →
  (n ∈ DeviceGroup.list_commands g ctx →
   ∃ rc, Dispatch.get_command device_pass g c n = Normal rc ∧ cmd_name rc = n)
  ∧ (n ∉ DeviceGroup.list_commands g ctx →
     Dispatch.get_command device_pass g c n = Raise (KeyError ("'" +:+ n +:+ "'"))).
Proof.
  intros Hnew Hg. destruct (hook_built _ _ _ _ Hnew) as (_ & _ & Ht & _).
  unfold DeviceGroup.default_get_device_group, DeviceGroup.__init__ in Hg.
  rewrite Ht in Hg. simplify_eq.
  rewrite list_commands_elem_of. unfold Dispatch.get_command. cbn. split.
  - intros [cmd Hcmd]. rewrite Hcmd.
    rewrite (wrap_named cmd _ n); [by eexists|].
    by apply (hook_table_keys _ _ _ _ _ n cmd Hnew Ht).
  - intros Hnone. apply eq_None_not_Some in Hnone. by rewrite Hnone.
Qed.

Lemma listed_iff_resolvable_witness :
  ("status" ∈ DeviceGroup.list_commands Light_default_group Ctx →
   ∃ rc, Dispatch.get_command (pass_device Light_device) Light_default_group tt "status"
         = Normal rc ∧ cmd_name rc = "status")
  ∧ ("Status" ∉ DeviceGroup.list_commands Light_default_group Ctx →
     Dispatch.get_command (pass_device Light_device) Light_default_group tt "Status"
     = Raise (KeyError "'Status'")).
Proof.
  split.
  - apply (listed_iff_resolvable dotted_quad_ip_address (pass_device Light_device)
             "Light" [] Light_namespace Light_class Light_default_group Ctx tt "status");
      [by vm_compute | reflexivity].
  - apply (listed_iff_resolvable dotted_quad_ip_address (pass_device Light_device)
             "Light" [] Light_namespace Light_class Light_default_group Ctx tt "Status");
      [by vm_compute | reflexivity].
Defined.

(** Running a resolved subcommand. Let the table hold, under [n], the
    descriptor of a method [func] declared with the decorators
    [decorators], and let click's pass decorator hand over the device
    [device]. Then [get_command] yields the descriptor's decorators, first
    declared outermost, around a trampoline; the trampoline calls the
    method that [device] has under the method's own name, not under the
    command name, with the arguments unchanged, and raises
    [AttributeError] when the device has no such method. *)
Theorem resolved_command_calls_method {C : Type}
        (device_pass : PyClass → (Device → Callable) → Callable)
        (device : Device) (g : DeviceGroup.t) (c : C) (n : string)
        (name : option string) (decorators : list (Callable → Callable))
        (kwargs : gmap string PyVal) (func : PyFunction) :
  (∀ cls f args kw, device_pass cls f args kw = f device args kw) →
  DeviceGroup.commands g !! n
  = Some (Command.__call__ (device_command decorators name kwargs) func) →
  ∃ rc trampoline,
    Dispatch.get_command device_pass g c n = Normal rc
    ∧ cmd_callback rc = foldr (λ decorator f, decorator f) trampoline decorators
    ∧ (decorators = [] → cmd_callback rc = trampoline)
    ∧ ∀ args kw,
        trampoline args kw =
          match device !! __name__ func with
          | Some method => method args kw
          | None => raise (AttributeError
                             ("object has no attribute '" +:+ __name__ func +:+ "'"))
          end.
Proof.
  intros Hpass Hcmd. unfold Dispatch.get_command. rewrite Hcmd.
  rewrite (wrap_named _ _ _ (command_name_decorated _ func)).
  eexists _, _. split; [reflexivity|]. cbn [cmd_callback]. split_and!.
  - apply fold_left_reverse_decorators.
  - intros ->. reflexivity.
  - intros args kw. rewrite Hpass. reflexivity.
Qed.

Lemma resolved_command_calls_method_witness :
  ∃ rc trampoline,
    Dispatch.get_command (pass_device Light_device) Light_default_group tt "status"
    = Normal rc
    ∧ cmd_callback rc = foldr (λ decorator f, decorator f) trampoline []
    ∧ (@nil (Callable → Callable) = [] → cmd_callback rc = trampoline)
    ∧ ∀ args kw,
        trampoline args kw =
          match Light_device !! "status" with
          | Some method => method args kw
          | None => raise (AttributeError
                             ("object has no attribute '" +:+ "status" +:+ "'"))
          end.
Proof.
  apply (resolved_command_calls_method (pass_device Light_device) Light_device
           Light_default_group tt "status" None [] ∅
           (method "status" (Some "Show status."))).
  - reflexivity.
  - by vm_compute.
Defined.

(** A command with an explicit name is still run through the method's own
    name: calling the command registered as "power" for the method [on]
    runs the device's [on]. *)
Example explicit_name_runs_method :
  let cmd := Command.__call__ (device_command [] (Some "power") ∅) (method "on" None) in
  Command.command_name cmd = Normal "power"
  ∧ Dispatch.command_callback Light_default_group cmd
      (<["on" := returning (VStr "switched on")]> Light_device) [] ∅
    = ([], Normal (VStr "switched on")).
Proof. split; by vm_compute. Qed.

(** ** Constructing the device *)

(** When a global context object is found, the device is constructed with
    its debug level as the [debug] keyword, whatever [debug] the parsed
    options held, a level of 0 included; the positional arguments and the
    other keywords are passed on. The constructed device becomes the
    context's object; if the constructor raises, the exception leaves the
    callback with the constructor's output and the context is not set. *)
Theorem group_callback_debug {C : Type}
        (find_object : C → option GlobalContextObject)
        (set_obj : Device → C → C)
        (construct : PyClass → list PyVal → Kwargs → Run Device)
        (self : DeviceGroup.t) (ctx : C) (gco : GlobalContextObject)
        (args : list PyVal) (kwargs : Kwargs) :
  find_object ctx = Some gco →
  (∀ v, Dispatch.group_callback find_object set_obj construct self ctx args
          (<["debug" := v]> kwargs)
        = Dispatch.group_callback find_object set_obj construct self ctx args kwargs)
  ∧ (∀ out device,
       construct (DeviceGroup.device_class self) args
         (<["debug" := VInt (debug gco)]> kwargs) = (out, Normal device) →
       Dispatch.group_callback find_object set_obj construct self ctx args kwargs
       = (out, Normal (set_obj device ctx)))
  ∧ (∀ out ex,
       construct (DeviceGroup.device_class self) args
         (<["debug" := VInt (debug gco)]> kwargs) = (out, Raise ex) →
       Dispatch.group_callback find_object set_obj construct self ctx args kwargs
       = (out, Raise ex)).
Proof.
  intros Hgco. unfold Dispatch.group_callback. rewrite Hgco. cbv zeta. split_and!.
  - intros v. unfold Kwargs in *. by rewrite insert_insert_eq.
  - intros out device Hc. rewrite (bind_normal _ _ out device [] (Normal (set_obj device ctx)) Hc);
      [by rewrite app_nil_r | done].
  - intros out ex Hc. by apply bind_raise.
Qed.

Lemma group_callback_debug_witness :
  (∀ v, Dispatch.group_callback ctx_global sample_set_obj sample_construct
          Light_default_group (mkSampleCtx (Some GlobalContextObject_default) None) []
          (<["debug" := v]> ∅)
        = Dispatch.group_callback ctx_global sample_set_obj sample_construct
            Light_default_group (mkSampleCtx (Some GlobalContextObject_default) None) [] ∅)
  ∧ (∀ out device,
       sample_construct Light_class [] (<["debug" := VInt 0]> ∅) = (out, Normal device) →
       Dispatch.group_callback ctx_global sample_set_obj sample_construct
         Light_default_group (mkSampleCtx (Some GlobalContextObject_default) None) [] ∅
       = (out, Normal (sample_set_obj device
                         (mkSampleCtx (Some GlobalContextObject_default) None))))
  ∧ (∀ out ex,
       sample_construct Light_class [] (<["debug" := VInt 0]> ∅) = (out, Raise ex) →
       Dispatch.group_callback ctx_global sample_set_obj sample_construct
         Light_default_group (mkSampleCtx (Some GlobalContextObject_default) None) [] ∅
       = (out, Raise ex)).
Proof.
  apply (group_callback_debug ctx_global sample_set_obj sample_construct
           Light_default_group (mkSampleCtx (Some GlobalContextObject_default) None)
           GlobalContextObject_default [] ∅).
  reflexivity.
Defined.

(** Without a global context object the keywords reach the constructor as
    they were parsed; with one at debug level 2 the constructor sees 2 even
    if the options said 7. *)
Example group_callback_on_samples :
  fst (Dispatch.group_callback ctx_global sample_set_obj sample_construct
         Light_default_group (mkSampleCtx None None) [] ∅)
  = [Echo (plain "debug=unset")]
  ∧ fst (Dispatch.group_callback ctx_global sample_set_obj sample_construct
           Light_default_group (mkSampleCtx (Some (mkGlobalContextObject 2)) None) []
           (<["debug" := VInt 7]> ∅))
    = [Echo (plain "debug=2")].
Proof. split; by vm_compute. Qed.

(** ** The echo decorator: failures, defaults, nesting *)

(** If the wrapped function raises, the wrapper raises the same exception:
    the message before the call has been printed, the function's own output
    follows, and nothing is printed after. *)
Theorem echo_wrapper_function_raises (msg_fmt result_msg_fmt : Fmt) (func : Callable)
        (args : list PyVal) (kwargs : Kwargs) (o1 o2 : list Event) (ex : PyExc) :
  echo_status msg_fmt kwargs = (o1, Normal tt) →
  func args kwargs = (o2, Raise ex) →
  echo_return_status msg_fmt result_msg_fmt func args kwargs = (o1 ++ o2, Raise ex).
Proof.
  intros H1 H2. unfold echo_return_status.
  eapply bind_normal; [done|]. by apply bind_raise.
Qed.

Lemma echo_wrapper_function_raises_witness :
  echo_return_status (FmtStr "Switching {what}") (FmtStr "done")
    (failing_main (DeviceError "no response")) [] (<["what" := VStr "on"]> ∅)
  = ([Echo (plain "Switching on")] ++ [Echo (plain "Connecting")],
     Raise (DeviceError "no response")).
Proof.
  apply (echo_wrapper_function_raises (FmtStr "Switching {what}") (FmtStr "done")
           (failing_main (DeviceError "no response")) [] (<["what" := VStr "on"]> ∅));
    reflexivity.
Defined.

(** If rendering the message before the call fails, the wrapped function is
    not called: the wrapper ends with that failure whatever the function
    is. *)
Theorem echo_wrapper_message_raises (msg_fmt result_msg_fmt : Fmt)
        (args : list PyVal) (kwargs : Kwargs) (o : list Event) (ex : PyExc) :
  echo_status msg_fmt kwargs = (o, Raise ex) →
  ∀ func : Callable,
    echo_return_status msg_fmt result_msg_fmt func args kwargs = (o, Raise ex).
Proof. intros H func. unfold echo_return_status. by apply bind_raise. Qed.

Lemma echo_wrapper_message_raises_witness :
  echo_return_status (FmtStr "Switching {what}") default_result_msg_fmt
    (announcing "called" (returning VNone)) [] ∅
  = ([], Raise (KeyError "'what'")).
Proof.
  apply (echo_wrapper_message_raises (FmtStr "Switching {what}") default_result_msg_fmt
           [] ∅ [] (KeyError "'what'")).
  reflexivity.
Defined.

Lemma append_empty_r (s : string) : s +:+ "" = s.
Proof.
  induction s as [|c s IH]; [done|].
  change (String c (s +:+ "") = String c s). by rewrite IH.
Qed.

Lemma format_result (kwargs : Kwargs) (v : PyVal) :
  kwargs !! "result" = Some v → format "{result}" kwargs = Normal (py_str v).
Proof.
  intros Hv. unfold format.
  change (format_from "{result}" None kwargs)
    with (match format_field "result" kwargs with
          | Normal s => prefix_outcome s (Normal "")
          | Raise ex => Raise ex
          end).
  unfold format_field. change (all_digits "result") with false.
  rewrite Hv. cbn. by rewrite append_empty_r.
Qed.

Lemma echo_wrapper_normal_None (msg_fmt result_msg_fmt : Fmt) (func : Callable)
      (args : list PyVal) (kwargs : Kwargs) (o : list Event) (v : PyVal) :
  echo_return_status msg_fmt result_msg_fmt func args kwargs = (o, Normal v) →
  v = VNone.
Proof.
  unfold echo_return_status, bind.
  destruct (echo_status msg_fmt kwargs) as [o1 [[]|?]]; [|done].
  destruct (func args kwargs) as [o2 [result|?]]; [|done].
  destruct (echo_status result_msg_fmt _) as [o3 [[]|?]]; [|done].
  cbn. by intros [= _ <-].
Qed.

(** With the default templates nothing is printed before the call, and
    after it the wrapper prints [str] of the return value, trimmed, unless
    that is the empty string; a function that returns [None] has "None"
    printed. *)
Theorem echo_default_prints_result (func : Callable) (args : list PyVal)
        (kwargs : Kwargs) (out : list Event) (result : PyVal) :
  func args kwargs = (out, Normal result) →
  echo_return_status default_msg_fmt default_result_msg_fmt func args kwargs
  = (out ++ (if String.eqb (py_str result) "" then []
             else [Echo (plain (strip (py_str result)))]),
     Normal VNone).
Proof.
  intros Hf.
  rewrite (echo_return_status_steps _ _ _ _ _ [] out result); [|done..].
  rewrite (echo_status_rendered default_result_msg_fmt _ [] (py_str result));
    [done | done |].
  unfold render, default_result_msg_fmt.
  rewrite (format_result _ result); [done|]. apply lookup_insert_eq.
Qed.

Lemma echo_default_prints_result_witness :
  echo_return_status default_msg_fmt default_result_msg_fmt (returning VNone) []
    (<["x" := VInt 5]> ∅)
  = ([] ++ [Echo (plain "None")], Normal VNone).
Proof.
  apply (echo_default_prints_result (returning VNone) [] (<["x" := VInt 5]> ∅) [] VNone).
  reflexivity.
Defined.

(** An echo decorator around another: the inner wrapper returns [None], so
    the outer one, with the default templates, prints "None" after whatever
    the inner one printed, not the wrapped function's result. *)
Theorem nested_echo_prints_None (msg_fmt result_msg_fmt : Fmt) (func : Callable)
        (args : list PyVal) (kwargs : Kwargs) (o : list Event) (v : PyVal) :
  echo_return_status msg_fmt result_msg_fmt func args kwargs = (o, Normal v) →
  echo_return_status default_msg_fmt default_result_msg_fmt
    (echo_return_status msg_fmt result_msg_fmt func) args kwargs
  = (o ++ [Echo (plain "None")], Normal VNone).
Proof.
  intros Hinner. pose proof (echo_wrapper_normal_None _ _ _ _ _ _ _ Hinner) as ->.
  rewrite (echo_return_status_steps _ _ _ _ _ [] o VNone); [|done..].
  rewrite (echo_status_rendered default_result_msg_fmt _ [] "None"); [done | done |].
  unfold render, default_result_msg_fmt.
  rewrite (format_result _ VNone); [done|]. apply lookup_insert_eq.
Qed.

Lemma nested_echo_prints_None_witness :
  echo_return_status default_msg_fmt default_result_msg_fmt
    (echo_return_status default_msg_fmt default_result_msg_fmt (returning (VInt 10)))
    [] ∅
  = ([Echo (plain "10")] ++ [Echo (plain "None")], Normal VNone).
Proof.
  apply (nested_echo_prints_None default_msg_fmt default_result_msg_fmt
           (returning (VInt 10)) [] ∅ [Echo (plain "10")] VNone).
  reflexivity.
Defined.

(** A keyword argument named [result] that the caller passes reaches the
    wrapped function and the message before the call, and is then replaced:
    the message after the call is rendered with the return value under
    [result], as if the caller had passed none. *)
Theorem echo_result_replaces_keyword (msg_fmt result_msg_fmt : Fmt) (func : Callable)
        (args : list PyVal) (kwargs : Kwargs) (passed result : PyVal)
        (o1 o2 : list Event) :
  echo_status msg_fmt (<["result" := passed]> kwargs) = (o1, Normal tt) →
  func args (<["result" := passed]> kwargs) = (o2, Normal result) →
  echo_return_status msg_fmt result_msg_fmt func args (<["result" := passed]> kwargs)
  = (o1 ++ o2 ++ fst (echo_status result_msg_fmt (<["result" := result]> kwargs)),
     match snd (echo_status result_msg_fmt (<["result" := result]> kwargs)) with
     | Normal _ => Normal VNone
     | Raise ex => Raise ex
     end).
Proof.
  intros H1 H2. rewrite (echo_return_status_steps _ _ _ _ _ o1 o2 result H1 H2).
  unfold Kwargs in *. by rewrite insert_insert_eq.
Qed.

Lemma echo_result_replaces_keyword_witness :
  echo_return_status (FmtStr "was {result}") (FmtStr "is {result}")
    (returning (VInt 10)) [] (<["result" := VInt 1]> ∅)
  = ([Echo (plain "was 1")] ++ []
     ++ fst (echo_status (FmtStr "is {result}") (<["result" := VInt 10]> ∅)),
     match snd (echo_status (FmtStr "is {result}") (<["result" := VInt 10]> ∅)) with
     | Normal _ => Normal VNone
     | Raise ex => Raise ex
     end).
Proof.
  apply (echo_result_replaces_keyword (FmtStr "was {result}") (FmtStr "is {result}")
           (returning (VInt 10)) [] ∅ (VInt 1) (VInt 10)); reflexivity.
Defined.



(** ** The address validator and the exception handler: what gets out *)

(** [validate_ip] never lets a [ValueError] out and never changes the
    value: it returns the value it was given when the library accepts it,
    turns the library's [ValueError] (of a subclass too) into
    [click.BadParameter] with the library's text after "Invalid IP: ", and
    lets any other exception of the library through as it is. *)
Theorem validate_ip_outcomes {IPAddress : Type}
        (ip_address : string → Outcome IPAddress)
        (ctx : ClickContext) (param : ClickParam) (value : string) :
  match validate_ip ip_address ctx param value with
  | Normal s => s = value ∧ is_normal (ip_address value) = true
  | Raise ex =>
      isinstance ex "ValueError" = false
      ∧ ∃ ex0, ip_address value = Raise ex0
               ∧ ex = if isinstance ex0 "ValueError"
                      then BadParameter ("Invalid IP: " +:+ exc_str ex0)
                      else ex0
  end.
Proof.
  unfold validate_ip. destruct (ip_address value) as [a|ex0]; [done|].
  destruct (isinstance ex0 "ValueError") eqn:Hv.
  - split; [done|]. exists ex0. by rewrite Hv.
  - split; [done|]. exists ex0. by rewrite Hv.
Qed.

(** [ipaddress.AddressValueError] derives from [ValueError] and is
    converted; a [TypeError] is not. *)
Example validate_ip_on_exceptions :
  validate_ip (λ _ : string, @Raise unit
                 (mkExc "ipaddress.AddressValueError"
                        ["ValueError"; "Exception"; "BaseException"] "Empty octet"))
              Ctx (Param "ip") "1..2.3"
  = Raise (BadParameter "Invalid IP: Empty octet")
  ∧ validate_ip (λ _ : string, @Raise unit
                   (mkExc "TypeError" ["Exception"; "BaseException"] "bad"))
                Ctx (Param "ip") "x"
    = Raise (mkExc "TypeError" ["Exception"; "BaseException"] "bad").
Proof. split; reflexivity. Qed.

(** No exception of the device-library family leaves the handler; the
    program's own output is kept, in front; and a handler around a handler
    changes nothing. *)
Theorem exception_handler_contains (main : Callable) (args : list PyVal)
        (kwargs : Kwargs) :
  (∀ ex, snd (ExceptionHandlerGroup.__call__ main args kwargs) = Raise ex →
         isinstance ex "miio.DeviceException" = false)
  ∧ (∃ more, fst (ExceptionHandlerGroup.__call__ main args kwargs)
             = fst (main args kwargs) ++ more)
  ∧ ExceptionHandlerGroup.__call__ (ExceptionHandlerGroup.__call__ main) args kwargs
    = ExceptionHandlerGroup.__call__ main args kwargs.
Proof.
  unfold ExceptionHandlerGroup.__call__.
  destruct (main args kwargs) as [out [v|ex]]; cbn.
  - split_and!; [done | by exists []; rewrite app_nil_r | done].
  - destruct (isinstance ex "miio.DeviceException") eqn:Hex; cbn.
    + split_and!; [done | by eexists | done].
    + rewrite Hex. split_and!; [by intros ? [= <-] | by exists []; rewrite app_nil_r | done].
Qed.

(** A command wrapped by the echo decorator, run under the handler, whose
    function fails with a device exception: the message before the call and
    the function's output are printed, then the error line; the message
    after the call is not, and the run ends normally with [None]. *)
Theorem handler_around_echo (msg_fmt result_msg_fmt : Fmt) (func : Callable)
        (args : list PyVal) (kwargs : Kwargs) (o1 o2 : list Event) (ex : PyExc) :
  echo_status msg_fmt kwargs = (o1, Normal tt) →
  func args kwargs = (o2, Raise ex) →
  isinstance ex "miio.DeviceException" = true →
  ExceptionHandlerGroup.__call__ (echo_return_status msg_fmt result_msg_fmt func)
    args kwargs
  = ((o1 ++ o2) ++ [LogDebug "Exception: %s" ex true;
                    Echo (style ("Error: " +:+ exc_str ex) "red" true)],
     Normal VNone).
Proof.
  intros H1 H2 Hex. apply exception_handler_catches; [|done].
  unfold echo_return_status. eapply bind_normal; [done|]. by apply bind_raise.
Qed.

Lemma handler_around_echo_witness :
  ExceptionHandlerGroup.__call__
    (echo_return_status (FmtStr "Switching {what}") (FmtStr "done")
       (failing_main (DeviceError "no response")))
    [] (<["what" := VStr "on"]> ∅)
  = (([Echo (plain "Switching on")] ++ [Echo (plain "Connecting")])
     ++ [LogDebug "Exception: %s" (DeviceError "no response") true;
         Echo (style ("Error: " +:+ exc_str (DeviceError "no response")) "red" true)],
     Normal VNone).
Proof.
  apply (handler_around_echo (FmtStr "Switching {what}") (FmtStr "done")
           (failing_main (DeviceError "no response")) [] (<["what" := VStr "on"]> ∅));
    reflexivity.
Defined.

(** ** Descriptors that were never applied *)

(** A descriptor that was declared but never applied to a method can only
    be materialized if it was given a non-empty name, and then without any
    [help] of the method's; without a name, asking for its command name,
    materializing it and calling it all raise [AttributeError]. *)
Theorem unapplied_descriptor (decorators : list (Callable → Callable))
        (name : option string) (kwargs : gmap string PyVal)
        (target : Callable) (owner : Device) (args : list PyVal) (kw : Kwargs) :
  let cmd := device_command decorators name kwargs in
  let missing := AttributeError "'Command' object has no attribute 'func'" in
  Command.call cmd owner args kw = ([], Raise missing)
  ∧ match name with
    | Some n =>
        if String.eqb n ""
        then Command.wrap cmd target = Raise missing
        else Command.wrap cmd target
             = Normal (click_command n kwargs
                         (foldr (λ decorator f, decorator f) target decorators))
    | None => Command.wrap cmd target = Raise missing
    end.
Proof.
  cbv zeta. split; [done|]. unfold Command.wrap, Command.command_name. cbn.
  destruct name as [n|]; [|done]. destruct (String.eqb n ""); [done|].
  by rewrite fold_left_reverse_decorators.
Qed.
